(** * Chart legend: interaction state machine

    A shallow embedding of the two legend implementations of the chart
    components repository:

    - [src/internal/components/chart-legend/index.tsx]: the root
      [ChartLegend] that composes one or two [LegendGroup]s (module
      [Legend] below);
    - the single-list [ChartLegend] variant, typed by
      ["bottom" | "stacked" | "stacked-top" | ...] (module [ListLegend]
      below).

    React state is passed explicitly, the callbacks given by the host chart
    are recorded as a list of emitted events, element registries are finite
    maps, and time is an integer number of milliseconds. *)

From Stdlib Require Import ZArith QArith List String Bool Lia.
From stdpp Require Import base option list gmap strings.
Import ListNotations.

Local Open Scope Z_scope.

(** ** Data model *)

(** [LegendItem] (the [marker] is a renderable node that no handler reads). *)
Record LegendItem := mkItem {
  id : string;
  name : string;
  visible : bool;
  highlighted : bool;
  oppositeAxis : bool;
}.

(** The callbacks of [ChartLegendProps], as notifications sent to the host. *)
Inductive HostEvent :=
| ItemHighlightEnter (item : LegendItem)
| ItemHighlightExit
| ItemVisibilityChange (ids : list string).

(** DOM nodes the handlers can tell apart: the button of a legend item
    (it carries [data-itemid]; its position in the rendered list identifies
    it), a node of the tooltip's subtree, any other node of the page. *)
Inductive Element :=
| ItemButton (index : Z) (itemid : string)
| TooltipNode (n : nat)
| OtherNode (n : nat).

Global Instance LegendItem_eq_dec : EqDecision LegendItem.
Proof. solve_decision. Defined.

Global Instance Element_eq_dec : EqDecision Element.
Proof. solve_decision. Defined.

(** JavaScript array helpers on the shapes the handlers use. *)

(** [xs.includes(x)] on an array of strings. *)
Definition includes (x : string) (xs : list string) : bool :=
  existsb (String.eqb x) xs.

(** [xs[i]] for a JavaScript number [i]: [undefined] out of range. *)
Definition at_index {A : Type} (xs : list A) (i : Z) : option A :=
  if i <? 0 then None else xs !! Z.to_nat i.

(** [xs.findIndex(p)]: the first index whose element satisfies [p], else -1. *)
Fixpoint findIndex_from {A : Type} (p : A -> bool) (xs : list A) (k : Z) : Z :=
  match xs with
  | [] => -1
  | x :: rest => if p x then k else findIndex_from p rest (k + 1)
  end.

Definition findIndex {A : Type} (p : A -> bool) (xs : list A) : Z :=
  findIndex_from p xs 0.

(** JavaScript truthiness of a [string | null]: [null] and the empty string
    are falsy. *)
Definition truthy (s : option string) : bool :=
  match s with
  | None => false
  | Some v => negb (String.eqb v "")
  end.

(** ** Component toolkit helpers *)

(** The key codes the legend tests for; any other key is [other]. *)
Module KeyCode.
Inductive t := right | left | up | down | home | end_ | escape | other (code : Z).
End KeyCode.

Module Toolkit.

(** The handler table passed to [handleKey]. *)
Record KeyHandlers (R : Type) := mkHandlers {
  onInlineStart : R;
  onInlineEnd : R;
  onBlockStart : R;
  onBlockEnd : R;
  onHome : R;
  onEnd : R;
  onEscape : R;
}.
Arguments mkHandlers {R}.
Arguments onInlineStart {R}.
Arguments onInlineEnd {R}.
Arguments onBlockStart {R}.
Arguments onBlockEnd {R}.
Arguments onHome {R}.
Arguments onEnd {R}.
Arguments onEscape {R}.

(** Modelled from the spec: [handleKey] is imported from the component
    toolkit and is not part of the sources.  Section 4.3: arrow-left/up
    and arrow-right/down move the focus index by -1/+1, home/end jump to
    first/last, Escape clears highlight.  So arrow-left runs
    [onInlineStart], arrow-right [onInlineEnd], arrow-up [onBlockStart],
    arrow-down [onBlockEnd]; a key without handler runs nothing. *)
Definition handleKey {R : Type} (key : KeyCode.t) (h : KeyHandlers R) (nothing : R) : R :=
  match key with
  | KeyCode.left => onInlineStart h
  | KeyCode.right => onInlineEnd h
  | KeyCode.up => onBlockStart h
  | KeyCode.down => onBlockEnd h
  | KeyCode.home => onHome h
  | KeyCode.end_ => onEnd h
  | KeyCode.escape => onEscape h
  | KeyCode.other _ => nothing
  end.

(** Modelled from the spec: [circleIndex] is imported from the component
    toolkit and is not part of the sources.  Section 4.3: wraparound,
    circular indexing over [[0, length-1]]: an index below the range
    wraps to its upper end, an index above it to its lower end. *)
Definition circleIndex (index : Z) (range : Z * Z) : Z :=
  let (from, to) := range in
  if index <? from then to
  else if to <? index then from
  else index.

End Toolkit.

(** ** DebouncedCall *)

Module DebouncedCall.

(** Modelled from the spec: the class [DebouncedCall] lives in
    [utils/utils], which is not part of the sources.  Section 3: it holds
    at most one pending scheduled action and an optional
    lock-until timestamp.  Section 4.1: [call] schedules the action after
    [delayMs], canceling the pending one; [cancelPrevious] drops a pending
    action; [lock ms] marks the instance locked until [now + ms], and a
    [call] issued while locked is dropped entirely. *)
Record t (A : Type) := mk {
  pending : option (Z * A);
  lockedUntil : option Z;
}.
Arguments mk {A}.
Arguments pending {A}.
Arguments lockedUntil {A}.

Section WithAction.
Context {A : Type}.

Definition create : t A := mk None None.

Definition locked (now : Z) (dc : t A) : bool :=
  match lockedUntil dc with
  | Some expiry => now <? expiry
  | None => false
  end.

Definition cancelPrevious (dc : t A) : t A :=
  mk None (lockedUntil dc).

Definition call (action : A) (delayMs : Z) (now : Z) (dc : t A) : t A :=
  if locked now dc then dc
  else mk (Some (now + delayMs, action)) (lockedUntil (cancelPrevious dc)).

Definition lock (ms : Z) (now : Z) (dc : t A) : t A :=
  mk (pending dc) (Some (now + ms)).

(** The timer: when the clock reaches [now], a pending action that is
    due fires, once. *)
Definition advance (now : Z) (dc : t A) : list A * t A :=
  match pending dc with
  | Some (due, action) =>
      if due <=? now then ([action], mk None (lockedUntil dc)) else ([], dc)
  | None => ([], dc)
  end.

(** A fake-clock run: timestamped operations; before each one the
    timer fires what is due.  [Tick] only lets time pass. *)
Inductive op := Call (action : A) (delayMs : Z) | CancelPrevious | Lock (ms : Z) | Tick.

Definition apply_op (now : Z) (o : op) (dc : t A) : t A :=
  match o with
  | Call action delayMs => call action delayMs now dc
  | CancelPrevious => cancelPrevious dc
  | Lock ms => lock ms now dc
  | Tick => dc
  end.

Fixpoint run (ops : list (Z * op)) (dc : t A) : list A * t A :=
  match ops with
  | [] => ([], dc)
  | (now, o) :: rest =>
      let (fired, dc1) := advance now dc in
      let (later, dc2) := run rest (apply_op now o dc1) in
      (fired ++ later, dc2)
  end.

End WithAction.

Arguments op : clear implicits.

End DebouncedCall.

(** ** Shared constants and state *)

Definition TOOLTIP_BLUR_DELAY : Z := 50.
Definition HIGHLIGHT_LOST_DELAY : Z := 50.
Definition SCROLL_DELAY : Z := 100.

(** The two element registries filled by the ref callbacks of the rendered
    items: [elementsByIndexRef] (one per item list) and [elementsByIdRef]. *)
Record Registries := mkRegistries {
  elementsByIndex : gmap Z Element;
  elementsById : gmap string Element;
}.

(** The [thisTriggerRef] callback of the item rendered at [index]: React
    calls it with the element on mount and with [null] on unmount. *)
Definition thisTriggerRef (index : Z) (item : LegendItem) (elem : option Element)
    (r : Registries) : Registries :=
  match elem with
  | Some e =>
      {| elementsByIndex := <[index := e]> (elementsByIndex r);
         elementsById := <[id item := e]> (elementsById r) |}
  | None =>
      {| elementsByIndex := delete index (elementsByIndex r);
         elementsById := delete (id item) (elementsById r) |}
  end.

(** [items.map((item, index) => <LegendItemTrigger ref={thisTriggerRef} .../>)]:
    the buttons of the list, in document order, from index [k] on. *)
Fixpoint buttons_from (items : list LegendItem) (k : Z) : list Element :=
  match items with
  | [] => []
  | item :: rest => ItemButton k (id item) :: buttons_from rest (k + 1)
  end.

Definition buttons (items : list LegendItem) : list Element := buttons_from items 0.

Fixpoint mount_from (items : list LegendItem) (k : Z) (r : Registries) : Registries :=
  match items with
  | [] => r
  | item :: rest =>
      mount_from rest (k + 1) (thisTriggerRef k item (Some (ItemButton k (id item))) r)
  end.

(** The registries once every item of the list is mounted. *)
Definition mount (items : list LegendItem) (r : Registries) : Registries :=
  mount_from items 0 r.

(** State of a legend instance: React state, the debounce controllers
    (a pending tooltip action is the value [setTooltipItemId] will store, a
    pending highlight action is the host callback), the id registry, the
    focused element of the document, the notifications sent so far and the
    value last stored by [setSelectedIndex] (each list of items has its own
    [selectedIndex]; the one written is that of the list that renders the
    focused button). *)
Record State := mkState {
  tooltipItemId : option string;
  shouldStack : bool;
  tooltipControl : DebouncedCall.t (option string);
  highlightControl : DebouncedCall.t HostEvent;
  registry : gmap string Element;
  activeElement : option Element;
  emitted : list HostEvent;
  selectedIndex : Z;
}.

Definition set_tooltipItemId (v : option string) (st : State) : State :=
  mkState v (shouldStack st) (tooltipControl st) (highlightControl st)
    (registry st) (activeElement st) (emitted st) (selectedIndex st).

Definition set_shouldStack (b : bool) (st : State) : State :=
  mkState (tooltipItemId st) b (tooltipControl st) (highlightControl st)
    (registry st) (activeElement st) (emitted st) (selectedIndex st).

Definition set_tooltipControl (c : DebouncedCall.t (option string)) (st : State) : State :=
  mkState (tooltipItemId st) (shouldStack st) c (highlightControl st)
    (registry st) (activeElement st) (emitted st) (selectedIndex st).

Definition set_highlightControl (c : DebouncedCall.t HostEvent) (st : State) : State :=
  mkState (tooltipItemId st) (shouldStack st) (tooltipControl st) c
    (registry st) (activeElement st) (emitted st) (selectedIndex st).

Definition set_activeElement (e : option Element) (st : State) : State :=
  mkState (tooltipItemId st) (shouldStack st) (tooltipControl st) (highlightControl st)
    (registry st) e (emitted st) (selectedIndex st).

Definition emit (evs : list HostEvent) (st : State) : State :=
  mkState (tooltipItemId st) (shouldStack st) (tooltipControl st) (highlightControl st)
    (registry st) (activeElement st) (emitted st ++ evs) (selectedIndex st).

Definition set_selectedIndex (index : Z) (st : State) : State :=
  mkState (tooltipItemId st) (shouldStack st) (tooltipControl st) (highlightControl st)
    (registry st) (activeElement st) (emitted st) index.

(** [element?.focus()] on a registry entry.  Nothing happens for a missing
    entry or for the element that has the focus already.  Otherwise the
    browser dispatches, synchronously and inside the calling handler, the
    blur event of the element that loses the focus and the focus event of
    the element that gains it.  [onBlurEvent] and [onFocusEvent] are the
    handlers the legend attaches: to the previous element, with the new one
    as [relatedTarget], and to an item button, with the index and the item
    id it was rendered with. *)
Definition focus (onFocusEvent : Z -> string -> State -> State)
    (onBlurEvent : Element -> option Element -> State -> State)
    (e : option Element) (st : State) : State :=
  match e with
  | Some el =>
      if bool_decide (activeElement st = Some el) then st
      else
        let blurred :=
          match activeElement st with
          | Some previous => onBlurEvent previous (Some el) st
          | None => st
          end in
        let focused := set_activeElement (Some el) blurred in
        match el with
        | ItemButton index itemid => onFocusEvent index itemid focused
        | _ => focused
        end
  | None => st
  end.

(** The timers of both controllers at time [now]: a fired tooltip action
    stores its value in [tooltipItemId], a fired highlight action notifies
    the host. *)
Definition runTimers (now : Z) (st : State) : State :=
  let (tips, tc) := DebouncedCall.advance now (tooltipControl st) in
  let (exits, hc) := DebouncedCall.advance now (highlightControl st) in
  emit exits
    (set_highlightControl hc
      (set_tooltipControl tc
        (set_tooltipItemId (fold_left (fun _ v => v) tips (tooltipItemId st)) st))).

(** [a < b] on measured widths, as a boolean. *)
Definition Qlt_bool (a b : Q) : bool := negb (Qle_bool b a).

(** [node.contains(other)]: [other] is a node of the subtree of [node]
    (given by its nodes, the root included). *)
Definition contains (subtree : list Element) (other : Element) : bool :=
  bool_decide (other ∈ subtree).

(** Modelled from the spec: [useSingleTabStopNavigation] is imported from
    the component toolkit and is not part of the sources.  Section 6: roving
    tabindex, 0 on the item that is the focus target, -1 on the rest. *)
Definition tabIndex (focusTarget : option Element) (button : Element) : Z :=
  if decide (focusTarget = Some button) then 0 else -1.

(** ** Shared pieces of the rendering *)

(** The [position] prop of the tooltip. *)
Inductive TooltipPosition := tooltip_bottom | tooltip_left.

(** The arithmetic of JavaScript numbers that the scroll callback uses,
    left abstract: the comparisons [>=] and [<=], addition, subtraction and
    halving of doubles. *)
Module Number.
Record ops (F : Type) := mk {
  ge : F -> F -> bool;
  le : F -> F -> bool;
  add : F -> F -> F;
  sub : F -> F -> F;
  half : F -> F;
}.
Arguments mk {F}.
Arguments ge {F}.
Arguments le {F}.
Arguments add {F}.
Arguments sub {F}.
Arguments half {F}.
End Number.

(** The fields of a [DOMRect] that the scroll callback reads. *)
Module DOMRect.
Record t (F : Type) := mk {
  top : F;
  bottom : F;
  height : F;
}.
Arguments mk {F}.
Arguments top {F}.
Arguments bottom {F}.
Arguments height {F}.
End DOMRect.

(** A scrollable container: its bounding rectangle and its [scrollTop]. *)
Record Container (F : Type) := mkContainer {
  boundingClientRect : DOMRect.t F;
  scrollTop : F;
}.
Arguments mkContainer {F}.
Arguments boundingClientRect {F}.
Arguments scrollTop {F}.

(** [element.dataset.itemid]: the [data-itemid] attribute, which only the
    buttons of legend items carry. *)
Definition dataset_itemid (e : Element) : option string :=
  match e with
  | ItemButton _ itemid => Some itemid
  | _ => None
  end.

(** What [LegendItemTrigger] puts on its button (the same component in
    both files): [data-itemid], [aria-pressed], [aria-current], the
    inactive and dimmed classes, and the label. *)
Record Trigger := mkTrigger {
  data_itemid : string;
  aria_pressed : bool;
  aria_current : bool;
  item_inactive : bool;
  item_dimmed : bool;
  label : string;
}.

Definition LegendItemTrigger (someHighlighted isHighlighted visible : bool)
    (itemId label : string) : Trigger :=
  {| data_itemid := itemId;
     aria_pressed := visible;
     aria_current := isHighlighted;
     item_inactive := negb visible;
     item_dimmed := someHighlighted && negb isHighlighted;
     label := label |}.

(** [items.some((item) => item.highlighted)]. *)
Definition someHighlighted (items : list LegendItem) : bool :=
  existsb highlighted items.

(** The scroll callback shared by both files, once the container and the
    element are resolved: the [top] passed to [container.scrollTo], or
    [None] when it returns without scrolling. *)
Definition scrollCallback {F : Type} (num : Number.ops F) (isMouseInContainer : bool)
    (container : option (Container F)) (element : option (DOMRect.t F)) : option F :=
  if isMouseInContainer then None
  else
    match container, element with
    | Some c, Some elementRect =>
        let containerRect := boundingClientRect c in
        let isVisible :=
          Number.ge num (DOMRect.top elementRect) (DOMRect.top containerRect)
          && Number.le num (DOMRect.bottom elementRect) (DOMRect.bottom containerRect) in
        if negb isVisible then
          let elementCenter :=
            Number.add num (DOMRect.top elementRect)
              (Number.half num (DOMRect.height elementRect)) in
          let containerCenter :=
            Number.add num (DOMRect.top containerRect)
              (Number.half num (DOMRect.height containerRect)) in
          Some (Number.add num (scrollTop c) (Number.sub num elementCenter containerCenter))
        else None
    | _, _ => None
    end.

(** ** The grouped legend: [chart-legend/index.tsx] *)

Module Legend.

Inductive LegendType := single | dual.
Inductive Position := bottom | side.

(** The [position] prop of a [LegendGroup]:
    ["bottom" | "bottom-default" | "bottom-opposite" | "side"]. *)
Inductive GroupPosition := group_bottom | bottom_default | bottom_opposite | group_side.

Definition defaultItems (type : LegendType) (items : list LegendItem) : list LegendItem :=
  match type with
  | single => items
  | dual => List.filter (fun item => negb (oppositeAxis item)) items
  end.

Definition oppositeItems (type : LegendType) (items : list LegendItem) : list LegendItem :=
  match type with
  | single => []
  | dual => List.filter (fun item => oppositeAxis item) items
  end.

Definition onShowTooltip (itemId : string) (now : Z) (st : State) : State :=
  set_tooltipControl (DebouncedCall.call (Some itemId) 0 now (tooltipControl st)) st.

Definition onHideTooltip (lock : bool) (now : Z) (st : State) : State :=
  let control := DebouncedCall.call None TOOLTIP_BLUR_DELAY now (tooltipControl st) in
  set_tooltipControl
    (if lock then DebouncedCall.lock TOOLTIP_BLUR_DELAY now control else control) st.

(** The [ResizeObserver] callback; an entry is the [inlineSize] of its
    first border box, [None] when [borderBoxSize] is undefined
    ([undefined < 400] is false). *)
Definition onResize (entries : list (option Q)) (st : State) : State :=
  match entries with
  | first :: _ =>
      set_shouldStack
        (match first with Some width => Qlt_bool width (400 # 1) | None => false end) st
  | [] => st
  end.

Definition onShowHighlight (items : list LegendItem) (itemId : string) (st : State) : State :=
  match List.find (fun item => String.eqb (id item) itemId) items with
  | Some item =>
      if visible item
      then emit [ItemHighlightEnter item]
             (set_highlightControl (DebouncedCall.cancelPrevious (highlightControl st)) st)
      else st
  | None => st
  end.

(** The handlers of [LegendGroup] that the focus and blur events run. *)

Definition clearHighlight (now : Z) (st : State) : State :=
  set_highlightControl
    (DebouncedCall.call ItemHighlightExit HIGHLIGHT_LOST_DELAY now (highlightControl st)) st.

(** [onFocus]: the new [selectedIndex] and the new state. *)
Definition onFocus (allItems : list LegendItem) (index : Z) (itemId : string) (now : Z)
    (st : State) : Z * State :=
  (index, onShowTooltip itemId now (onShowHighlight allItems itemId st)).

(** [onBlur]: [tooltipRef] is the subtree of the node [tooltipRef.current],
    [relatedTarget] the element that receives the focus. *)
Definition onBlur (tooltipRef : option (list Element)) (relatedTarget : option Element)
    (now : Z) (st : State) : State :=
  match tooltipRef, relatedTarget with
  | Some tooltip, Some target =>
      if negb (contains tooltip target)
      then onHideTooltip false now (clearHighlight now st)
      else st
  | _, _ => st
  end.

(** The focus event of an item button: [onFocus] of the list that renders
    it, the index it gives to [setSelectedIndex] stored in the state. *)
Definition focusEvent (allItems : list LegendItem) (now : Z) (index : Z) (itemId : string)
    (st : State) : State :=
  let (selected, after) := onFocus allItems index itemId now st in
  set_selectedIndex selected after.

(** The blur event of the element that loses the focus: [onBlur] for an
    item button, [tooltipRef.current] being null since no element is ever
    attached to [tooltipRef]; the [onBlur] prop the root gives the tooltip
    for a node of the tooltip; nothing of these files for another node. *)
Definition blurEvent (now : Z) (previous : Element) (relatedTarget : option Element)
    (st : State) : State :=
  match previous with
  | ItemButton _ _ => onBlur None relatedTarget now st
  | TooltipNode _ => onHideTooltip false now st
  | OtherNode _ => st
  end.

Definition onDocumentKeyDown (allItems : list LegendItem) (tooltipItemId : string)
    (key : KeyCode.t) (now : Z) (st : State) : State :=
  match key with
  | KeyCode.escape =>
      focus (focusEvent allItems now) (blurEvent now) (registry st !! tooltipItemId)
        (onHideTooltip true now st)
  | _ => st
  end.

(** The effect that installs the capturing document listener: none when
    [!tooltipItemId], else the listener closed over the current id. *)
Definition documentListener (allItems : list LegendItem) (tooltipItemId : option string)
    : option (KeyCode.t -> Z -> State -> State) :=
  if negb (truthy tooltipItemId) then None
  else option_map (onDocumentKeyDown allItems) tooltipItemId.

(** A key pressed anywhere in the document. *)
Definition documentKeyDown (allItems : list LegendItem) (key : KeyCode.t) (now : Z)
    (st : State) : State :=
  match documentListener allItems (tooltipItemId st) with
  | Some listener => listener key now st
  | None => st
  end.

(** The notifications [onToggleItem] sends, in order. *)
Definition onToggleItem (items : list LegendItem) (itemId : string) : list HostEvent :=
  let visibleItems := map id (List.filter visible items) in
  (if includes itemId visibleItems
   then [ItemVisibilityChange
           (List.filter (fun visibleItemId => negb (String.eqb visibleItemId itemId))
              visibleItems)]
   else [ItemVisibilityChange (visibleItems ++ [itemId])])
  ++ [ItemHighlightExit].

(** The notifications [onSelectItem] sends, in order. *)
Definition onSelectItem (items : list LegendItem) (itemId : string) : list HostEvent :=
  let visibleItems := map id (List.filter visible items) in
  (if Nat.eqb (length visibleItems) 1
      && match at_index visibleItems 0 with
         | Some first => String.eqb first itemId
         | None => false
         end
   then [ItemVisibilityChange (map id items)]
   else [ItemVisibilityChange [itemId]])
  ++ [ItemHighlightExit].

(** What the root renders: the groups, each with its position, its items
    and its label, and how they are arranged. *)
Record Group := mkGroup {
  position : GroupPosition;
  items : list LegendItem;
  ariaLabel : string;
}.

Inductive Rendered :=
| OneGroup (g : Group)
| Fragment (groups : list Group)
| DualAxisContainer (default opposite : Group).

Definition sideGroups (type : LegendType) (items : list LegendItem) : list Group :=
  mkGroup group_side (defaultItems type items) "Default legend"
  :: (if Nat.ltb 0 (length (oppositeItems type items))
      then [mkGroup group_side (oppositeItems type items) "Opposite legend"]
      else []).

Definition render (type : LegendType) (pos : Position) (shouldStack : bool)
    (items : list LegendItem) : Rendered :=
  match pos with
  | bottom =>
      if Nat.eqb (length (oppositeItems type items)) 0
      then OneGroup (mkGroup group_bottom (defaultItems type items) "Chart legend")
      else if shouldStack then Fragment (sideGroups type items)
      else DualAxisContainer
             (mkGroup bottom_default (defaultItems type items) "Primary legend")
             (mkGroup bottom_opposite (oppositeItems type items) "Opposite legend")
  | side => Fragment (sideGroups type items)
  end.

(** *** [LegendGroup] *)

Definition focusElement (allItems : list LegendItem) (now : Z) (byIndex : gmap Z Element)
    (index : Z) (st : State) : State :=
  focus (focusEvent allItems now) (blurEvent now) (byIndex !! index) st.

(** [onKeyDown]: whether the default action was prevented, and the new
    state.  [allItems] are the items of the root, which [onShowHighlight]
    searches; [items] are the items of the group. *)
Definition onKeyDown (allItems items : list LegendItem) (selectedIndex : Z)
    (byIndex : gmap Z Element) (key : KeyCode.t) (now : Z) (st : State) : bool * State :=
  match key with
  | KeyCode.other _ => (false, st)
  | _ =>
      let range := (0, Z.of_nat (length items) - 1) in
      let focusElement := focusElement allItems now byIndex in
      (true,
       Toolkit.handleKey key
         {| Toolkit.onInlineStart :=
              focusElement (Toolkit.circleIndex (selectedIndex - 1) range);
            Toolkit.onInlineEnd :=
              focusElement (Toolkit.circleIndex (selectedIndex + 1) range);
            Toolkit.onBlockStart :=
              focusElement (Toolkit.circleIndex (selectedIndex - 1) range);
            Toolkit.onBlockEnd :=
              focusElement (Toolkit.circleIndex (selectedIndex + 1) range);
            Toolkit.onHome := focusElement 0;
            Toolkit.onEnd := focusElement (Z.of_nat (length items) - 1);
            Toolkit.onEscape := emit [ItemHighlightExit] |}
         (fun s => s) st)
  end.

(** [onUnregisterActive]: [target] is what
    [navigationAPI.current?.getFocusTarget()] returns. *)
Definition onUnregisterActive (allItems : list LegendItem) (now : Z)
    (target : option Element) (focusableElement : Element) (st : State) : State :=
  match target with
  | Some t =>
      if negb (bool_decide (dataset_itemid t = dataset_itemid focusableElement))
      then focus (focusEvent allItems now) (blurEvent now) (Some t) st
      else st
  | None => st
  end.

(** [getNextFocusTarget]: [containerRef] is the list of item buttons
    under [containerRef.current], [None] while it is not mounted. *)
Definition getNextFocusTarget (containerRef : option (list Element))
    (items : list LegendItem) : option Element :=
  match containerRef with
  | Some buttons =>
      let highlightedIndex := findIndex highlighted items in
      match at_index buttons highlightedIndex with
      | Some button => Some button
      | None => at_index buttons 0
      end
  | None => None
  end.

(** *** The rest of the root and of [LegendGroup] *)

Definition tooltipPosition (pos : Position) : TooltipPosition :=
  match pos with
  | bottom => tooltip_bottom
  | side => tooltip_left
  end.

(** [items.find((item) => item.id === tooltipItemId) ?? null]. *)
Definition tooltipTarget (items : list LegendItem) (tooltipItemId : option string)
    : option LegendItem :=
  match tooltipItemId with
  | Some v => List.find (fun item => String.eqb (id item) v) items
  | None => None
  end.

(** [tooltipTrack.current]. *)
Definition tooltipTrack (byId : gmap string Element) (tooltipItemId : option string)
    : option Element :=
  if truthy tooltipItemId
  then match tooltipItemId with Some v => byId !! v | None => None end
  else None.

(** [tooltipContent]; the tooltip is rendered when it is not null. *)
Definition tooltipContent {C : Type} (getTooltipContent : LegendItem -> option C)
    (items : list LegendItem) (tooltipItemId : option string) : option C :=
  match tooltipTarget items tooltipItemId with
  | Some target => getTooltipContent target
  | None => None
  end.

(** The handlers of a rendered item. *)
Definition onMouseEnter (allItems : list LegendItem) (itemId : string) (now : Z)
    (st : State) : State :=
  onShowTooltip itemId now (onShowHighlight allItems itemId st).

Definition onMouseLeave (now : Z) (st : State) : State :=
  onHideTooltip false now (clearHighlight now st).

Definition onClick (allItems : list LegendItem) (metaKey ctrlKey : bool) (itemId : string)
    : list HostEvent :=
  if metaKey || ctrlKey then onToggleItem allItems itemId else onSelectItem allItems itemId.

(** [renderedItems]: [someHighlighted] is computed by the root over all
    items and passed down to each group. *)
Definition renderedItems (someHl : bool) (groupItems : list LegendItem) : list Trigger :=
  map (fun item =>
         LegendItemTrigger someHl (highlighted item) (visible item) (id item) (name item))
    groupItems.

(** The effect that schedules the scroll to the highlighted item; the
    pending action is the callback closed over [highlightedId]. *)
Definition scrollEffect (groupItems : list LegendItem) (now : Z)
    (scrollIntoViewControl : DebouncedCall.t string) : DebouncedCall.t string :=
  match option_map id (List.find highlighted groupItems) with
  | Some highlightedId =>
      DebouncedCall.call highlightedId SCROLL_DELAY now scrollIntoViewControl
  | None => scrollIntoViewControl
  end.

(** The scheduled callback: the container is
    [scrollableContainerRef?.current ?? containerRef.current], the element
    is [elementsByIdRef.current?.[highlightedId]]. *)
Definition scrollIntoView {F : Type} (num : Number.ops F) (isMouseInContainer : bool)
    (scrollableContainerRef containerRef : option (Container F))
    (rectOf : Element -> DOMRect.t F) (byId : gmap string Element) (highlightedId : string)
    : option F :=
  scrollCallback num isMouseInContainer
    (match scrollableContainerRef with Some c => Some c | None => containerRef end)
    (option_map rectOf (byId !! highlightedId)).

End Legend.

(** ** The single-list legend *)

Module ListLegend.

Definition SHOULD_STACK_SIZE : Q := 400 # 1.

(** [ChartLegendType]. *)
Inductive ChartLegendType :=
| bottom | stacked | stacked_top | stacked_bottom | bottom_left | bottom_right.

(** The string a [ChartLegendType] is. *)
Definition typeName (type : ChartLegendType) : string :=
  match type with
  | bottom => "bottom"
  | stacked => "stacked"
  | stacked_top => "stacked-top"
  | stacked_bottom => "stacked-bottom"
  | bottom_left => "bottom-left"
  | bottom_right => "bottom-right"
  end.

(** The query of [useContainerQuery]; [None] is the container not yet
    measured (the hook then yields [null], which is falsy). *)
Definition useContainerQuery (borderBoxWidth : option Q) : bool :=
  match borderBoxWidth with
  | Some width => Qle_bool width SHOULD_STACK_SIZE
  | None => false
  end.

Definition filteredItems (type : ChartLegendType) (items : list LegendItem)
    : list LegendItem :=
  match type with
  | bottom | stacked => items
  | bottom_left | stacked_top => List.filter (fun item => negb (oppositeAxis item)) items
  | bottom_right | stacked_bottom => List.filter (fun item => oppositeAxis item) items
  end.

Definition showTooltip (itemId : string) (now : Z) (st : State) : State :=
  set_tooltipControl (DebouncedCall.call (Some itemId) 0 now (tooltipControl st)) st.

Definition hideTooltip (lock : bool) (now : Z) (st : State) : State :=
  let control := DebouncedCall.call None TOOLTIP_BLUR_DELAY now (tooltipControl st) in
  set_tooltipControl
    (if lock then DebouncedCall.lock TOOLTIP_BLUR_DELAY now control else control) st.

Definition showHighlight (filtered : list LegendItem) (itemId : string) (st : State)
    : State :=
  match List.find (fun item => String.eqb (id item) itemId) filtered with
  | Some item =>
      if visible item
      then emit [ItemHighlightEnter item]
             (set_highlightControl (DebouncedCall.cancelPrevious (highlightControl st)) st)
      else st
  | None => st
  end.

Definition clearHighlight (now : Z) (st : State) : State :=
  set_highlightControl
    (DebouncedCall.call ItemHighlightExit HIGHLIGHT_LOST_DELAY now (highlightControl st)) st.

Definition onFocus (filtered : list LegendItem) (index : Z) (itemId : string) (now : Z)
    (st : State) : Z * State :=
  (index, showTooltip itemId now (showHighlight filtered itemId st)).

Definition onBlur (tooltipRef : option (list Element)) (relatedTarget : option Element)
    (now : Z) (st : State) : State :=
  match tooltipRef, relatedTarget with
  | Some tooltip, Some target =>
      if negb (contains tooltip target)
      then hideTooltip false now (clearHighlight now st)
      else st
  | _, _ => st
  end.

(** The focus event of an item button: [onFocus] of the list that renders
    it, the index it gives to [setSelectedIndex] stored in the state. *)
Definition focusEvent (filtered : list LegendItem) (now : Z) (index : Z) (itemId : string)
    (st : State) : State :=
  let (selected, after) := onFocus filtered index itemId now st in
  set_selectedIndex selected after.

(** The blur event of the element that loses the focus: [onBlur] for an
    item button, [tooltipRef.current] being null since no element is ever
    attached to [tooltipRef]; the [onBlur] prop the legend gives the tooltip
    for a node of the tooltip; nothing of these files for another node. *)
Definition blurEvent (now : Z) (previous : Element) (relatedTarget : option Element)
    (st : State) : State :=
  match previous with
  | ItemButton _ _ => onBlur None relatedTarget now st
  | TooltipNode _ => hideTooltip false now st
  | OtherNode _ => st
  end.

Definition onDocumentKeyDown (filtered : list LegendItem) (tooltipItemId : string)
    (key : KeyCode.t) (now : Z) (st : State) : State :=
  match key with
  | KeyCode.escape =>
      focus (focusEvent filtered now) (blurEvent now) (registry st !! tooltipItemId)
        (hideTooltip true now st)
  | _ => st
  end.

(** The effect that installs the capturing document listener: none when
    [!tooltipItemId], else the listener closed over the current id. *)
Definition documentListener (filtered : list LegendItem) (tooltipItemId : option string)
    : option (KeyCode.t -> Z -> State -> State) :=
  if negb (truthy tooltipItemId) then None
  else option_map (onDocumentKeyDown filtered) tooltipItemId.

(** A key pressed anywhere in the document. *)
Definition documentKeyDown (filtered : list LegendItem) (key : KeyCode.t) (now : Z)
    (st : State) : State :=
  match documentListener filtered (tooltipItemId st) with
  | Some listener => listener key now st
  | None => st
  end.

Definition focusElement (filtered : list LegendItem) (now : Z) (byIndex : gmap Z Element)
    (index : Z) (st : State) : State :=
  focus (focusEvent filtered now) (blurEvent now) (byIndex !! index) st.

Definition onKeyDown (filtered : list LegendItem) (selectedIndex : Z)
    (byIndex : gmap Z Element) (key : KeyCode.t) (now : Z) (st : State) : bool * State :=
  match key with
  | KeyCode.other _ => (false, st)
  | _ =>
      let range := (0, Z.of_nat (length filtered) - 1) in
      let focusElement := focusElement filtered now byIndex in
      (true,
       Toolkit.handleKey key
         {| Toolkit.onInlineStart :=
              focusElement (Toolkit.circleIndex (selectedIndex - 1) range);
            Toolkit.onInlineEnd :=
              focusElement (Toolkit.circleIndex (selectedIndex + 1) range);
            Toolkit.onBlockStart :=
              focusElement (Toolkit.circleIndex (selectedIndex - 1) range);
            Toolkit.onBlockEnd :=
              focusElement (Toolkit.circleIndex (selectedIndex + 1) range);
            Toolkit.onHome := focusElement 0;
            Toolkit.onEnd := focusElement (Z.of_nat (length filtered) - 1);
            Toolkit.onEscape := emit [ItemHighlightExit] |}
         (fun s => s) st)
  end.

Definition onUnregisterActive (filtered : list LegendItem) (now : Z)
    (target : option Element) (focusableElement : Element) (st : State) : State :=
  match target with
  | Some t =>
      if negb (bool_decide (dataset_itemid t = dataset_itemid focusableElement))
      then focus (focusEvent filtered now) (blurEvent now) (Some t) st
      else st
  | None => st
  end.

(** [getNextFocusTarget]: [buttons[selectedIndex] ?? null]. *)
Definition getNextFocusTarget (containerRef : option (list Element)) (selectedIndex : Z)
    : option Element :=
  match containerRef with
  | Some buttons => at_index buttons selectedIndex
  | None => None
  end.

Definition toggleItem (items : list LegendItem) (itemId : string) : list HostEvent :=
  let visibleItems := map id (List.filter visible items) in
  (if includes itemId visibleItems
   then [ItemVisibilityChange
           (List.filter (fun visibleItemId => negb (String.eqb visibleItemId itemId))
              visibleItems)]
   else [ItemVisibilityChange (visibleItems ++ [itemId])])
  ++ [ItemHighlightExit].

Definition selectItem (items : list LegendItem) (itemId : string) : list HostEvent :=
  let visibleItems := map id (List.filter visible items) in
  (if Nat.eqb (length visibleItems) 1
      && match at_index visibleItems 0 with
         | Some first => String.eqb first itemId
         | None => false
         end
   then [ItemVisibilityChange (map id items)]
   else [ItemVisibilityChange [itemId]])
  ++ [ItemHighlightExit].

(** [s.includes(part)] and [s.startsWith(part)] on strings. *)
Definition str_includes (part s : string) : bool :=
  match String.index 0 part s with Some _ => true | None => false end.

Definition isDual (type : ChartLegendType) : bool := str_includes "-" (typeName type).
Definition isBottom (type : ChartLegendType) : bool := String.prefix "bottom" (typeName type).
Definition isStacked (type : ChartLegendType) (shouldStack : bool) : bool :=
  String.prefix "stacked" (typeName type) || shouldStack.
Definition isBottomRightNotStacked (type : ChartLegendType) (shouldStack : bool) : bool :=
  String.eqb (typeName type) "bottom-right" && negb shouldStack.

(** What the list element shows: its layout classes and its items in
    order. *)
Record ListView := mkView {
  list_side : bool;
  list_bottom : bool;
  list_bottom_opposite : bool;
  shown : list LegendItem;
}.

Definition render (type : ChartLegendType) (shouldStack : bool) (items : list LegendItem)
    : ListView :=
  {| list_side := isStacked type shouldStack;
     list_bottom := negb (isStacked type shouldStack);
     list_bottom_opposite := isBottomRightNotStacked type shouldStack;
     shown := filteredItems type items |}.

(** *** The rest of the component *)

Definition tooltipPosition (type : ChartLegendType) (shouldStack : bool) : TooltipPosition :=
  if isStacked type shouldStack then tooltip_left else tooltip_bottom.

Definition tooltipTarget (filtered : list LegendItem) (tooltipItemId : option string)
    : option LegendItem :=
  match tooltipItemId with
  | Some v => List.find (fun item => String.eqb (id item) v) filtered
  | None => None
  end.

Definition tooltipTrack (byId : gmap string Element) (tooltipItemId : option string)
    : option Element :=
  if truthy tooltipItemId
  then match tooltipItemId with Some v => byId !! v | None => None end
  else None.

Definition tooltipContent {C : Type} (getTooltipContent : LegendItem -> option C)
    (filtered : list LegendItem) (tooltipItemId : option string) : option C :=
  match tooltipTarget filtered tooltipItemId with
  | Some target => getTooltipContent target
  | None => None
  end.

Definition onMouseEnter (filtered : list LegendItem) (itemId : string) (now : Z)
    (st : State) : State :=
  showTooltip itemId now (showHighlight filtered itemId st).

Definition onMouseLeave (now : Z) (st : State) : State :=
  hideTooltip false now (clearHighlight now st).

Definition onClick (items : list LegendItem) (metaKey ctrlKey : bool) (itemId : string)
    : list HostEvent :=
  if metaKey || ctrlKey then toggleItem items itemId else selectItem items itemId.

(** The rendered triggers: the filtered items, [someHighlighted] computed
    over all items. *)
Definition renderedItems (type : ChartLegendType) (items : list LegendItem) : list Trigger :=
  map (fun item =>
         LegendItemTrigger (someHighlighted items) (highlighted item) (visible item)
           (id item) (name item))
    (filteredItems type items).

(** The scroll effect; the pending action is the callback closed over
    [highlightedIndex]. *)
Definition scrollEffect (filtered : list LegendItem) (now : Z)
    (scrollIntoViewControl : DebouncedCall.t Z) : DebouncedCall.t Z :=
  let highlightedIndex := findIndex highlighted filtered in
  if highlightedIndex =? -1 then scrollIntoViewControl
  else DebouncedCall.call highlightedIndex SCROLL_DELAY now scrollIntoViewControl.

Definition scrollIntoView {F : Type} (num : Number.ops F) (isMouseInContainer : bool)
    (containerRef : option (Container F)) (rectOf : Element -> DOMRect.t F)
    (byIndex : gmap Z Element) (highlightedIndex : Z) : option F :=
  scrollCallback num isMouseInContainer containerRef
    (option_map rectOf (byIndex !! highlightedIndex)).

End ListLegend.

(** ** The core legend adapter *)

Module CoreLegend.

(** [alignment === "horizontal" ? "bottom" : "stacked"], the prop
    defaulting to ["horizontal"]. *)
Definition type (alignment : option string) : ListLegend.ChartLegendType :=
  let alignment := match alignment with Some a => a | None => "horizontal"%string end in
  if String.eqb alignment "horizontal" then ListLegend.bottom else ListLegend.stacked.

(** [CoreLegend]: [None] is the [null] it returns for an empty item list,
    otherwise what the single-list legend shows. *)
Definition render (alignment : option string) (items : list LegendItem)
    (shouldStack : bool) : option ListLegend.ListView :=
  if Nat.eqb (length items) 0 then None
  else Some (ListLegend.render (type alignment) shouldStack items).

End CoreLegend.

(** ** Specification vocabulary *)

(** Both implementations of an operation, to state a property once for the
    two of them. *)
Definition select_handlers : list (list LegendItem -> string -> list HostEvent) :=
  [Legend.onSelectItem; ListLegend.selectItem].

Definition toggle_handlers : list (list LegendItem -> string -> list HostEvent) :=
  [Legend.onToggleItem; ListLegend.toggleItem].

(** The ids of the items that are visible now, in list order. *)
Definition visibleIds (items : list LegendItem) : list string :=
  map id (List.filter visible items).

(** [x] is the one and only visible item of the list. *)
Definition sole_visible (items : list LegendItem) (x : LegendItem) : Prop :=
  forall y, In y items -> (visible y = true <-> y = x).

(** ** Sample data *)

(** The scenario of the specification: items a and b visible, c hidden. *)
Definition item_a : LegendItem := mkItem "a" "A" true false false.
Definition item_b : LegendItem := mkItem "b" "B" true false false.
Definition item_c : LegendItem := mkItem "c" "C" false false true.
Definition abc : list LegendItem := [item_a; item_b; item_c].

(** The same list once the host has applied a visible set. *)
Definition with_visible (ids : list string) (items : list LegendItem) : list LegendItem :=
  map (fun item =>
         mkItem (id item) (name item) (includes (id item) ids) (highlighted item)
           (oppositeAxis item)) items.


(** A legend that was just created: no tooltip, nothing pending, nothing
    registered, nothing focused. *)
Definition initial : State :=
  mkState None false DebouncedCall.create DebouncedCall.create ∅ None [] 0.

(** ** Vocabulary for keyboard navigation *)

(** The key handler of each implementation, given the items its highlight
    handler searches and the items it displays (one and the same list in
    the single-list legend). *)
Definition keydown_handlers
    : list (list LegendItem -> list LegendItem -> Z -> gmap Z Element -> KeyCode.t -> Z ->
            State -> bool * State) :=
  [Legend.onKeyDown; fun _ filtered => ListLegend.onKeyDown filtered].

(** The focus is on the button of the item displayed at index [j]. *)
Definition focus_on (items : list LegendItem) (j : Z) (st : State) : Prop :=
  exists item, at_index items j = Some item /\
               activeElement st = Some (ItemButton j (id item)).

(** ** Vocabulary for the tab stop *)

(** [item], displayed at index [k], is the highlighted item (the first one,
    should the host highlight several). *)
Definition first_highlighted (items : list LegendItem) (k : Z) (item : LegendItem) : Prop :=
  at_index items k = Some item /\ highlighted item = true /\
  forall j other, j < k -> at_index items j = Some other -> highlighted other = false.

(** Exactly one button of the list has [tabindex] 0, and it is [stop]. *)
Definition sole_tab_stop (items : list LegendItem) (target : option Element)
    (stop : Element) : Prop :=
  In stop (buttons items) /\
  forall button, In button (buttons items) -> (tabIndex target button = 0 <-> button = stop).

(** Item a, then item b highlighted. *)
Definition item_b_highlighted : LegendItem := mkItem "b" "B" true true false.
Definition a_then_highlighted_b : list LegendItem := [item_a; item_b_highlighted].

(** ** Vocabulary for the debounced tooltip *)


Definition document_handlers : list (list LegendItem -> KeyCode.t -> Z -> State -> State) :=
  [Legend.documentKeyDown; ListLegend.documentKeyDown].

Definition document_listeners
    : list (list LegendItem -> option string -> option (KeyCode.t -> Z -> State -> State)) :=
  [Legend.documentListener; ListLegend.documentListener].

(** An operation other than [lock]. *)
Definition is_lock {A : Type} (o : DebouncedCall.op A) : bool :=
  match o with
  | DebouncedCall.Lock _ => true
  | _ => false
  end.

(** What fires from the moment [call f1 d] was issued at [t0] on [dc], when
    [call f2 d] follows at [t1] and the clock then reaches [t]. *)
Definition fired_after_two_calls {A : Type} (dc : DebouncedCall.t A) (f1 f2 : A)
    (d t0 t1 t : Z) : list A * DebouncedCall.t A :=
  DebouncedCall.run [(t1, DebouncedCall.Call f2 d); (t, DebouncedCall.Tick)]
    (DebouncedCall.call f1 d t0 dc).

(** An instance locked at time 0 for 100 ms. *)
Definition locked_instance : DebouncedCall.t string :=
  DebouncedCall.lock 100 0 DebouncedCall.create.

(** A legend whose tooltip is shown for item b, the button of b registered. *)
Definition tooltip_on_b : State :=
  mkState (Some "b") false DebouncedCall.create DebouncedCall.create
    {[ "b" := ItemButton 1 "b" ]} None [] 0.

(** A legend whose item has the empty string as id, its tooltip shown. *)
Definition tooltip_on_empty_id : State :=
  mkState (Some "") false DebouncedCall.create DebouncedCall.create
    {[ "" := ItemButton 0 "" ]} None [] 0.

(** The item with the empty id. *)
Definition item_empty_id : LegendItem := mkItem "" "E" true false false.

(** ** Vocabulary for the layout *)

(** The two groups of a dual-axis legend one below the other, each with the
    side layout. *)
Definition stacked_column (default opposite : list LegendItem) : Legend.Rendered :=
  Legend.Fragment
    [Legend.mkGroup Legend.group_side default "Default legend";
     Legend.mkGroup Legend.group_side opposite "Opposite legend"].

(** The two groups of a dual-axis legend side by side in a row. *)
Definition side_by_side (default opposite : list LegendItem) : Legend.Rendered :=
  Legend.DualAxisContainer
    (Legend.mkGroup Legend.bottom_default default "Primary legend")
    (Legend.mkGroup Legend.bottom_opposite opposite "Opposite legend").

Definition width_500 : Q := 500 # 1.
Definition width_300 : Q := 300 # 1.

(** ** Vocabulary for the rest of the components *)

(** The groups a rendering shows, in document order. *)
Definition groups_of (r : Legend.Rendered) : list Legend.Group :=
  match r with
  | Legend.OneGroup g => [g]
  | Legend.Fragment groups => groups
  | Legend.DualAxisContainer default opposite => [default; opposite]
  end.

(** React unmounting the items of a list: every ref callback is called
    with [null]. *)
Fixpoint unmount_from (items : list LegendItem) (k : Z) (r : Registries) : Registries :=
  match items with
  | [] => r
  | item :: rest => unmount_from rest (k + 1) (thisTriggerRef k item None r)
  end.

Definition unmount (items : list LegendItem) (r : Registries) : Registries :=
  unmount_from items 0 r.

Definition no_registries : Registries := mkRegistries ∅ ∅.

Definition click_handlers : list (list LegendItem -> bool -> bool -> string -> list HostEvent) :=
  [Legend.onClick; ListLegend.onClick].

Definition highlight_handlers : list (list LegendItem -> string -> State -> State) :=
  [Legend.onShowHighlight; ListLegend.showHighlight].

Definition enter_handlers : list (list LegendItem -> string -> Z -> State -> State) :=
  [Legend.onMouseEnter; ListLegend.onMouseEnter].

Definition leave_handlers : list (Z -> State -> State) :=
  [Legend.onMouseLeave; ListLegend.onMouseLeave].


(** The scroll callbacks that run when the list [first] is rendered at
    [t0], the list [second] at [t1], and the clock then reaches [t]. *)
Definition scrolls_after_two_renders (first second : list LegendItem)
    (control : DebouncedCall.t string) (t0 t1 t : Z) : list string :=
  fst (DebouncedCall.advance t
         (Legend.scrollEffect second t1
            (snd (DebouncedCall.advance t1 (Legend.scrollEffect first t0 control))))).



(** The index a navigation key leads to from the focus index [i] of a
    list of [n] items. *)
Definition key_target (key : KeyCode.t) (i n : Z) : option Z :=
  match key with
  | KeyCode.right | KeyCode.down => Some ((i + 1) mod n)
  | KeyCode.left | KeyCode.up => Some ((i - 1) mod n)
  | KeyCode.home => Some 0
  | KeyCode.end_ => Some (n - 1)
  | KeyCode.escape | KeyCode.other _ => None
  end.

(** The item and its trigger agree. *)
Definition trigger_of (allItems : list LegendItem) (item : LegendItem) (trigger : Trigger)
    : Prop :=
  data_itemid trigger = id item /\
  label trigger = name item /\
  aria_pressed trigger = visible item /\
  item_inactive trigger = negb (visible item) /\
  aria_current trigger = highlighted item /\
  (item_dimmed trigger = true
   <-> highlighted item = false /\
       exists other, In other allItems /\ highlighted other = true).

(** A legend whose hidden item, c, comes before its visible item, a. *)
Definition c_then_a : list LegendItem := [item_c; item_a].
(** ** Lists of items with unique ids *)

Lemma includes_In (x : string) (xs : list string) : includes x xs = true <-> In x xs.
Proof.
  unfold includes. rewrite existsb_exists. split.
  - intros [y [Hy Heq]]. apply String.eqb_eq in Heq. now subst.
  - intros Hx. exists x. split; [assumption | apply String.eqb_refl].
Qed.

Lemma includes_false (x : string) (xs : list string) : ~ In x xs -> includes x xs = false.
Proof.
  intros Hx. destruct (includes x xs) eqn:E; [|reflexivity].
  apply includes_In in E. contradiction.
Qed.

Lemma filter_neq_remove (x : string) (xs : list string) :
  List.filter (fun v => negb (String.eqb v x)) xs = List.remove String.string_dec x xs.
Proof.
  induction xs as [|v xs IH]; simpl; [reflexivity|].
  destruct (String.string_dec x v) as [->|Hne].
  - rewrite String.eqb_refl. simpl. exact IH.
  - assert (String.eqb v x = false) as -> by (apply String.eqb_neq; congruence).
    simpl. now rewrite IH.
Qed.

Lemma id_inj_on (items : list LegendItem) (a b : LegendItem) :
  List.NoDup (map id items) -> In a items -> In b items -> id a = id b -> a = b.
Proof.
  induction items as [|c items IH]; simpl; [tauto|].
  intros Hnd Ha Hb Heq. inversion Hnd as [|? ? Hnotin Hnd']; subst.
  destruct Ha as [->|Ha], Hb as [->|Hb]; try reflexivity.
  - exfalso. apply Hnotin. rewrite Heq. now apply in_map.
  - exfalso. apply Hnotin. rewrite <- Heq. now apply in_map.
  - now apply IH.
Qed.

Lemma visibleIds_In (items : list LegendItem) (y : LegendItem) :
  List.NoDup (map id items) -> In y items ->
  (In (id y) (visibleIds items) <-> visible y = true).
Proof.
  intros Hnd Hy. unfold visibleIds. rewrite in_map_iff. split.
  - intros [z [Hid Hz]]. apply filter_In in Hz as [Hz Hvis].
    now rewrite <- (id_inj_on items z y Hnd Hz Hy Hid).
  - intros Hvis. exists y. split; [reflexivity|]. apply filter_In. now split.
Qed.

Lemma filter_all_false {A : Type} (p : A -> bool) (l : list A) :
  (forall z, In z l -> p z = false) -> List.filter p l = [].
Proof.
  induction l as [|a l IH]; simpl; intros H; [reflexivity|].
  rewrite (H a) by now left. apply IH. intros z Hz. apply H. now right.
Qed.

Lemma sole_visible_filter (items : list LegendItem) (x : LegendItem) :
  List.NoDup items -> In x items -> sole_visible items x ->
  List.filter visible items = [x].
Proof.
  unfold sole_visible.
  induction items as [|y items IH]; simpl; intros Hnd Hx Hsole; [tauto|].
  inversion Hnd as [|? ? Hnotin Hnd']; subst.
  destruct (decide (y = x)) as [->|Hne].
  - assert (visible x = true) as -> by (apply Hsole; [now left | reflexivity]).
    f_equal. apply filter_all_false. intros z Hz.
    destruct (visible z) eqn:E; [|reflexivity].
    exfalso. apply Hnotin. assert (z = x) as <-; [|assumption].
    apply Hsole; [now right | assumption].
  - destruct Hx as [Hx|Hx]; [contradiction|].
    assert (visible y = false) as ->.
    { destruct (visible y) eqn:E; [|reflexivity].
      exfalso. apply Hne. apply Hsole; [now left | assumption]. }
    apply IH; try assumption.
    intros z Hz. apply Hsole. now right.
Qed.

Lemma NoDup_items (items : list LegendItem) :
  List.NoDup (map id items) -> List.NoDup items.
Proof. apply NoDup_map_inv. Qed.

Lemma visibleIds_sole (items : list LegendItem) (x : LegendItem) :
  List.NoDup (map id items) -> In x items ->
  visibleIds items = [id x] -> sole_visible items x.
Proof.
  intros Hnd Hx Hids y Hy.
  rewrite <- (visibleIds_In items y Hnd Hy), Hids. simpl. split.
  - intros [Heq|[]]. symmetry. now apply (id_inj_on items).
  - intros ->. now left.
Qed.

Lemma selectItem_same : ListLegend.selectItem = Legend.onSelectItem.
Proof. reflexivity. Qed.

Lemma toggleItem_same : ListLegend.toggleItem = Legend.onToggleItem.
Proof. reflexivity. Qed.

Lemma select_handlers_same select :
  In select select_handlers -> select = Legend.onSelectItem.
Proof. intros [<-|[<-|[]]]; reflexivity. Qed.

Lemma toggle_handlers_same toggle :
  In toggle toggle_handlers -> toggle = Legend.onToggleItem.
Proof. intros [<-|[<-|[]]]; reflexivity. Qed.

(** What [onSelectItem] sends, by the list of visible ids. *)
Lemma onSelectItem_by_ids (items : list LegendItem) (itemId : string) :
  Legend.onSelectItem items itemId =
  [ItemVisibilityChange
     (if decide (visibleIds items = [itemId]) then map id items else [itemId]);
   ItemHighlightExit].
Proof.
  unfold Legend.onSelectItem. fold (visibleIds items).
  destruct (decide (visibleIds items = [itemId])) as [->|Hne].
  - simpl. unfold at_index. simpl. now rewrite String.eqb_refl.
  - destruct (visibleIds items) as [|v [|w rest]]; try reflexivity.
    simpl. unfold at_index. simpl.
    destruct (String.eqb_spec v itemId) as [->|Hv]; [contradiction | reflexivity].
Qed.

(** ** Visibility: select and toggle *)

(** C1. With unique item ids, "select" on an item [x] of the list notifies
    [onItemVisibilityChange] first, with the ids of all items when [x] is
    the sole visible item and with the one-element list of the id of [x] in
    every other state (and then clears the highlight); so do both
    implementations. *)
Theorem select_sole_or_single :
  forall select, In select select_handlers ->
  forall (items : list LegendItem) (x : LegendItem),
    List.NoDup (map id items) -> In x items ->
    (sole_visible items x ->
       select items (id x) = [ItemVisibilityChange (map id items); ItemHighlightExit]) /\
    (~ sole_visible items x ->
       select items (id x) = [ItemVisibilityChange [id x]; ItemHighlightExit]).
Proof.
  intros select Hsel items x Hnd Hx.
  rewrite (select_handlers_same select Hsel), onSelectItem_by_ids. split.
  - intros Hsole. rewrite decide_True; [reflexivity|].
    unfold visibleIds.
    now rewrite (sole_visible_filter items x (NoDup_items items Hnd) Hx Hsole).
  - intros Hnot. rewrite decide_False; [reflexivity|].
    intros Hids. apply Hnot. now apply visibleIds_sole.
Qed.

Example select_b_once : Legend.onSelectItem abc "b" = [ItemVisibilityChange ["b"]; ItemHighlightExit].
Proof. reflexivity. Qed.

Example select_b_twice :
  Legend.onSelectItem (with_visible ["b"] abc) "b"
  = [ItemVisibilityChange ["a"; "b"; "c"]; ItemHighlightExit].
Proof. reflexivity. Qed.

Lemma abc_NoDup : List.NoDup (map id abc).
Proof. repeat constructor; simpl; intuition discriminate. Qed.

Lemma select_sole_or_single_witness :
  Legend.onSelectItem abc (id item_b) = [ItemVisibilityChange [id item_b]; ItemHighlightExit].
Proof.
  refine (proj2 (select_sole_or_single Legend.onSelectItem _ abc item_b _ _) _).
  - left. reflexivity.
  - exact abc_NoDup.
  - simpl. tauto.
  - intros Hsole. specialize (Hsole item_a). simpl in Hsole.
    assert (item_a = item_b) as Habs by (apply Hsole; [tauto | reflexivity]).
    discriminate Habs.
Defined.

(** C2. With unique item ids, "toggle" on an item [x] of the list notifies
    [onItemVisibilityChange] first, with the current visible-id list minus
    the id of [x] when [x] is visible and with the current visible-id list
    plus the id of [x] when it is not; every other item is in the notified
    list exactly when it is visible now.  So do both implementations. *)
Theorem toggle_adds_or_removes :
  forall toggle, In toggle toggle_handlers ->
  forall (items : list LegendItem) (x : LegendItem),
    List.NoDup (map id items) -> In x items ->
    exists ids,
      toggle items (id x) = [ItemVisibilityChange ids; ItemHighlightExit] /\
      (visible x = true -> ids = List.remove String.string_dec (id x) (visibleIds items)) /\
      (visible x = false -> ids = visibleIds items ++ [id x]) /\
      (forall y, In y items -> y <> x -> (In (id y) ids <-> visible y = true)).
Proof.
  intros toggle Htog items x Hnd Hx.
  rewrite (toggle_handlers_same toggle Htog).
  unfold Legend.onToggleItem. fold (visibleIds items).
  pose proof (visibleIds_In items x Hnd Hx) as Hxin.
  assert (forall y, In y items -> y <> x -> id y <> id x) as Hother.
  { intros y Hy Hne Heq. apply Hne. now apply (id_inj_on items). }
  destruct (visible x) eqn:Hvis.
  - rewrite (proj2 (includes_In _ _)) by now apply Hxin.
    rewrite filter_neq_remove. eexists. split; [reflexivity|].
    split; [reflexivity|]. split; [discriminate|].
    intros y Hy Hne. rewrite <- (visibleIds_In items y Hnd Hy). split.
    + intros Hin. now apply in_remove in Hin.
    + intros Hin. apply in_in_remove; [|assumption]. now apply Hother.
  - rewrite includes_false.
    2:{ intros Hin. apply Hxin in Hin. discriminate. }
    eexists. split; [reflexivity|].
    split; [discriminate|]. split; [reflexivity|].
    intros y Hy Hne. rewrite <- (visibleIds_In items y Hnd Hy).
    rewrite in_app_iff. simpl. split; [|tauto].
    intros [Hin|[Heq|[]]]; [assumption|].
    exfalso. now apply (Hother y Hy Hne).
Qed.

Example toggle_b_off : Legend.onToggleItem abc "b" = [ItemVisibilityChange ["a"]; ItemHighlightExit].
Proof. reflexivity. Qed.

Example toggle_c_on :
  Legend.onToggleItem abc "c" = [ItemVisibilityChange ["a"; "b"; "c"]; ItemHighlightExit].
Proof. reflexivity. Qed.

Lemma toggle_adds_or_removes_witness :
  exists ids,
    ListLegend.toggleItem abc (id item_c) = [ItemVisibilityChange ids; ItemHighlightExit] /\
    (visible item_c = true ->
       ids = List.remove String.string_dec (id item_c) (visibleIds abc)) /\
    (visible item_c = false -> ids = visibleIds abc ++ [id item_c]) /\
    (forall y, In y abc -> y <> item_c -> (In (id y) ids <-> visible y = true)).
Proof.
  apply (toggle_adds_or_removes ListLegend.toggleItem).
  - right. left. reflexivity.
  - exact abc_NoDup.
  - simpl. tauto.
Defined.

(** C10. When exactly one item [x] is visible, "toggle" on [x] notifies
    [onItemVisibilityChange] with the empty list: the legend lets the user
    hide every series. *)
Theorem toggle_last_visible_hides_all :
  forall toggle, In toggle toggle_handlers ->
  forall (items : list LegendItem) (x : LegendItem),
    List.filter visible items = [x] ->
    toggle items (id x) = [ItemVisibilityChange []; ItemHighlightExit].
Proof.
  intros toggle Htog items x Hone.
  rewrite (toggle_handlers_same toggle Htog).
  unfold Legend.onToggleItem. rewrite Hone. simpl.
  now rewrite String.eqb_refl.
Qed.

Lemma toggle_last_visible_hides_all_witness :
  Legend.onToggleItem (with_visible ["b"] abc) "b" = [ItemVisibilityChange []; ItemHighlightExit].
Proof.
  apply (toggle_last_visible_hides_all Legend.onToggleItem
           (or_introl eq_refl) (with_visible ["b"] abc)
           (mkItem "b" "B" true false false)).
  reflexivity.
Defined.

(** ** Registries of a mounted list *)

Lemma mount_from_below (items : list LegendItem) (k j : Z) (r : Registries) :
  j < k -> elementsByIndex (mount_from items k r) !! j = elementsByIndex r !! j.
Proof.
  revert k r. induction items as [|item items IH]; intros k r Hlt; simpl; [reflexivity|].
  rewrite IH by lia. simpl. apply lookup_insert_ne. lia.
Qed.

Lemma mount_from_lookup (items : list LegendItem) (k : Z) (r : Registries) (i : nat)
    (item : LegendItem) :
  items !! i = Some item ->
  elementsByIndex (mount_from items k r) !! (k + Z.of_nat i)
  = Some (ItemButton (k + Z.of_nat i) (id item)).
Proof.
  revert k r i. induction items as [|first items IH]; intros k r i Hi; [discriminate|].
  destruct i as [|i].
  - injection Hi as ->. cbn [mount_from]. rewrite Z.add_0_r, mount_from_below by lia.
    simpl. apply lookup_insert_eq.
  - cbn [mount_from]. rewrite Nat2Z.inj_succ.
    replace (k + Z.succ (Z.of_nat i)) with ((k + 1) + Z.of_nat i) by lia.
    apply IH. exact Hi.
Qed.

Lemma at_index_Some {A : Type} (xs : list A) (j : Z) :
  0 <= j < Z.of_nat (length xs) -> exists x, at_index xs j = Some x.
Proof.
  intros Hj. unfold at_index.
  destruct (Z.ltb_spec j 0) as [Hneg|_]; [lia|].
  destruct (lookup_lt_is_Some_2 xs (Z.to_nat j)) as [x Hx]; [lia|]. now exists x.
Qed.

Lemma mount_lookup (items : list LegendItem) (r : Registries) (j : Z) (item : LegendItem) :
  at_index items j = Some item ->
  elementsByIndex (mount items r) !! j = Some (ItemButton j (id item)).
Proof.
  unfold at_index, mount. destruct (Z.ltb_spec j 0) as [Hneg|Hpos]; [discriminate|].
  intros Hitem. pose proof (mount_from_lookup items 0 r (Z.to_nat j) item Hitem) as H.
  rewrite Z.add_0_l, Z2Nat.id in H by assumption. exact H.
Qed.

(** The handlers that a focus or blur event runs leave the focus, the id
    registry and the layout as they are. *)
Lemma onShowHighlight_keeps (items : list LegendItem) (itemId : string) (st : State) :
  activeElement (Legend.onShowHighlight items itemId st) = activeElement st /\
  registry (Legend.onShowHighlight items itemId st) = registry st /\
  tooltipControl (Legend.onShowHighlight items itemId st) = tooltipControl st /\
  tooltipItemId (Legend.onShowHighlight items itemId st) = tooltipItemId st /\
  selectedIndex (Legend.onShowHighlight items itemId st) = selectedIndex st.
Proof.
  unfold Legend.onShowHighlight.
  destruct (List.find _ items) as [item|]; [destruct (visible item)|]; repeat split.
Qed.

Lemma focusEvent_activeElement (allItems : list LegendItem) (now index : Z) (itemId : string)
    (st : State) :
  activeElement (Legend.focusEvent allItems now index itemId st) = activeElement st.
Proof.
  unfold Legend.focusEvent, Legend.onFocus. cbn.
  now destruct (onShowHighlight_keeps allItems itemId st) as [-> _].
Qed.

Lemma blurEvent_activeElement (now : Z) (previous : Element) (related : option Element)
    (st : State) :
  activeElement (Legend.blurEvent now previous related st) = activeElement st.
Proof. destruct previous; reflexivity. Qed.

(** After [focus] on an element, that element has the focus. *)
Lemma focus_lands (allItems : list LegendItem) (now : Z) (el : Element) (st : State) :
  activeElement (focus (Legend.focusEvent allItems now) (Legend.blurEvent now) (Some el) st)
  = Some el.
Proof.
  unfold focus. destruct (bool_decide (activeElement st = Some el)) eqn:E.
  - now apply bool_decide_eq_true in E.
  - destruct el; rewrite ?focusEvent_activeElement; reflexivity.
Qed.

(** Focusing a displayed index through the index registry of the mounted
    list lands on the button of that item. *)
Lemma focusElement_mounted (allItems items : list LegendItem) (r : Registries) (j now : Z)
    (st : State) :
  0 <= j < Z.of_nat (length items) ->
  focus_on items j (Legend.focusElement allItems now (elementsByIndex (mount items r)) j st).
Proof.
  intros Hj. destruct (at_index_Some items j Hj) as [item Hitem].
  exists item. split; [assumption|].
  unfold Legend.focusElement. rewrite (mount_lookup items r j item Hitem).
  apply focus_lands.
Qed.

Lemma circleIndex_next (i n : Z) :
  0 <= i < n -> Toolkit.circleIndex (i + 1) (0, n - 1) = (i + 1) mod n.
Proof.
  intros Hi. unfold Toolkit.circleIndex.
  destruct (Z.ltb_spec (i + 1) 0) as [?|_]; [lia|].
  destruct (Z.ltb_spec (n - 1) (i + 1)) as [Hlast|Hin].
  - replace (i + 1) with n by lia. now rewrite Z_mod_same_full.
  - now rewrite Z.mod_small by lia.
Qed.

Lemma circleIndex_previous (i n : Z) :
  0 <= i < n -> Toolkit.circleIndex (i - 1) (0, n - 1) = (i - 1) mod n.
Proof.
  intros Hi. unfold Toolkit.circleIndex.
  destruct (Z.ltb_spec (i - 1) 0) as [Hfirst|Hpos].
  - replace (i - 1) with (-1) by lia.
    apply (Z.mod_unique (-1) n (-1) (n - 1)); lia.
  - destruct (Z.ltb_spec (n - 1) (i - 1)) as [?|_]; [lia|].
    now rewrite Z.mod_small by lia.
Qed.

Lemma keydown_handlers_cases onKeyDown :
  In onKeyDown keydown_handlers ->
  forall allItems items : list LegendItem,
    exists searched, onKeyDown allItems items = Legend.onKeyDown searched items.
Proof.
  intros [<-|[<-|[]]] allItems items; [exists allItems | exists items]; reflexivity.
Qed.

(** ** Keyboard navigation *)

(** C3. On a displayed list of [n] items, all mounted, with the focus index
    [i] in [[0, n-1]]: arrow-right and arrow-down move the focus to the
    button at index [(i+1) mod n], arrow-left and arrow-up to the button at
    index [(i-1) mod n], Home to the button at index 0 and End to the button
    at index [n-1].  So do both implementations. *)
Theorem arrows_wrap_home_end :
  forall onKeyDown, In onKeyDown keydown_handlers ->
  forall (allItems items : list LegendItem) (r : Registries) (i now : Z) (st : State),
    0 <= i < Z.of_nat (length items) ->
    let n := Z.of_nat (length items) in
    let after key :=
      snd (onKeyDown allItems items i (elementsByIndex (mount items r)) key now st) in
    focus_on items ((i + 1) mod n) (after KeyCode.right) /\
    focus_on items ((i + 1) mod n) (after KeyCode.down) /\
    focus_on items ((i - 1) mod n) (after KeyCode.left) /\
    focus_on items ((i - 1) mod n) (after KeyCode.up) /\
    focus_on items 0 (after KeyCode.home) /\
    focus_on items (n - 1) (after KeyCode.end_).
Proof.
  intros onKeyDown Hin allItems items r i now st Hi n after. subst after.
  destruct (keydown_handlers_cases onKeyDown Hin allItems items) as [searched ->].
  unfold Legend.onKeyDown.
  cbn [snd Toolkit.handleKey Toolkit.onInlineStart Toolkit.onInlineEnd
       Toolkit.onBlockStart Toolkit.onBlockEnd Toolkit.onHome Toolkit.onEnd].
  fold n.
  rewrite (circleIndex_next i n Hi), (circleIndex_previous i n Hi).
  assert (0 <= (i + 1) mod n < n) by (apply Z.mod_pos_bound; lia).
  assert (0 <= (i - 1) mod n < n) by (apply Z.mod_pos_bound; lia).
  repeat split; apply focusElement_mounted; lia.
Qed.

Example arrow_right_from_last :
  activeElement (snd (Legend.onKeyDown abc abc 2 (elementsByIndex (mount abc (mkRegistries ∅ ∅)))
                        KeyCode.right 0 initial))
  = Some (ItemButton 0 "a").
Proof. vm_compute. reflexivity. Qed.

Example arrow_left_from_first :
  activeElement (snd (ListLegend.onKeyDown abc 0 (elementsByIndex (mount abc (mkRegistries ∅ ∅)))
                        KeyCode.left 0 initial))
  = Some (ItemButton 2 "c").
Proof. vm_compute. reflexivity. Qed.

Lemma arrows_wrap_home_end_witness :
  focus_on abc 0
    (snd (Legend.onKeyDown abc abc 2 (elementsByIndex (mount abc (mkRegistries ∅ ∅)))
            KeyCode.right 0 initial)).
Proof.
  refine (proj1 (arrows_wrap_home_end Legend.onKeyDown (or_introl eq_refl) abc abc
                   (mkRegistries ∅ ∅) 2 0 initial _)).
  simpl. lia.
Defined.

(** ** The buttons of a list and [findIndex] *)

Lemma buttons_from_lookup (items : list LegendItem) (k : Z) (i : nat) :
  buttons_from items k !! i
  = (fun item => ItemButton (k + Z.of_nat i) (id item)) <$> items !! i.
Proof.
  revert k i. induction items as [|first items IH]; intros k i; [reflexivity|].
  destruct i as [|i]; cbn [buttons_from].
  - simpl. now rewrite Z.add_0_r.
  - change ((ItemButton k (id first) :: buttons_from items (k + 1)) !! S i)
      with (buttons_from items (k + 1) !! i).
    change ((first :: items) !! S i) with (items !! i).
    rewrite IH, Nat2Z.inj_succ.
    now replace (k + 1 + Z.of_nat i) with (k + Z.succ (Z.of_nat i)) by lia.
Qed.

Lemma at_index_buttons (items : list LegendItem) (j : Z) :
  at_index (buttons items) j = (fun item => ItemButton j (id item)) <$> at_index items j.
Proof.
  unfold at_index, buttons. destruct (Z.ltb_spec j 0) as [Hneg|Hpos]; [reflexivity|].
  rewrite buttons_from_lookup. now rewrite Z.add_0_l, Z2Nat.id by assumption.
Qed.

Lemma at_index_In {A : Type} (xs : list A) (j : Z) (x : A) :
  at_index xs j = Some x -> In x xs.
Proof.
  unfold at_index. destruct (j <? 0); [discriminate|].
  intros H. apply list_elem_of_In. now apply list_elem_of_lookup_2 in H.
Qed.

Lemma at_index_nat {A : Type} (xs : list A) (j : Z) (x : A) :
  at_index xs j = Some x -> 0 <= j /\ xs !! Z.to_nat j = Some x.
Proof.
  unfold at_index. destruct (Z.ltb_spec j 0); [discriminate|]. now split.
Qed.

Lemma findIndex_from_first {A : Type} (p : A -> bool) (xs : list A) (k : Z) (i : nat) (x : A) :
  xs !! i = Some x -> p x = true ->
  (forall j y, (j < i)%nat -> xs !! j = Some y -> p y = false) ->
  findIndex_from p xs k = k + Z.of_nat i.
Proof.
  revert k i. induction xs as [|a xs IH]; intros k i Hx Hp Hbefore; [discriminate|].
  destruct i as [|i]; cbn [findIndex_from].
  - injection Hx as ->. rewrite Hp. lia.
  - rewrite (Hbefore 0%nat a) by (lia || reflexivity).
    rewrite (IH (k + 1) i Hx Hp); [lia|].
    intros j y Hj Hy. apply (Hbefore (S j)); [lia | exact Hy].
Qed.

Lemma findIndex_from_none {A : Type} (p : A -> bool) (xs : list A) (k : Z) :
  (forall x, In x xs -> p x = false) -> findIndex_from p xs k = -1.
Proof.
  revert k. induction xs as [|a xs IH]; intros k H; cbn [findIndex_from]; [reflexivity|].
  rewrite (H a) by now left. apply IH. intros x Hx. apply H. now right.
Qed.

Lemma findIndex_first_highlighted (items : list LegendItem) (k : Z) (item : LegendItem) :
  first_highlighted items k item -> findIndex highlighted items = k.
Proof.
  intros (Hitem & Hhl & Hbefore). apply at_index_nat in Hitem as [Hk Hitem].
  unfold findIndex. rewrite (findIndex_from_first _ _ 0 (Z.to_nat k) item Hitem Hhl).
  - lia.
  - intros j y Hj Hy. apply (Hbefore (Z.of_nat j)); [lia|].
    unfold at_index. destruct (Z.ltb_spec (Z.of_nat j) 0); [lia|].
    now rewrite Nat2Z.id.
Qed.

Lemma tabIndex_zero (target : option Element) (button : Element) :
  tabIndex target button = 0 <-> target = Some button.
Proof. unfold tabIndex. destruct (decide (target = Some button)); split; (easy || lia). Qed.

Lemma sole_tab_stop_of_target (items : list LegendItem) (stop : Element) :
  In stop (buttons items) -> sole_tab_stop items (Some stop) stop.
Proof.
  intros Hin. split; [assumption|]. intros button _. rewrite tabIndex_zero.
  split; congruence.
Qed.

(** ** Tab stop *)

(** C4, as the code has it.  In the grouped legend, for every non-empty
    displayed list (mounted), the focus target is the button of the
    highlighted item when some item is highlighted and the button of the
    first item otherwise, and exactly one button has [tabindex] 0.  In the
    single-list legend the focus target is the button at [selectedIndex],
    the index focused last, whatever is highlighted: none when that index
    is outside the list, and then no button has [tabindex] 0. *)
Theorem tab_stop_resolution :
  (forall items : list LegendItem, items <> [] ->
     let target := Legend.getNextFocusTarget (Some (buttons items)) items in
     (forall k item, first_highlighted items k item ->
        target = Some (ItemButton k (id item))) /\
     ((forall item, In item items -> highlighted item = false) ->
        exists first, at_index items 0 = Some first /\
                      target = Some (ItemButton 0 (id first))) /\
     (exists stop, target = Some stop /\ sole_tab_stop items target stop)) /\
  (forall (items : list LegendItem) (selectedIndex : Z),
     let target := ListLegend.getNextFocusTarget (Some (buttons items)) selectedIndex in
     (forall item, at_index items selectedIndex = Some item ->
        target = Some (ItemButton selectedIndex (id item)) /\
        sole_tab_stop items target (ItemButton selectedIndex (id item))) /\
     (at_index items selectedIndex = None ->
        target = None /\ forall button, tabIndex target button = -1)).
Proof.
  split.
  - intros items Hne target.
    assert (exists first, at_index items 0 = Some first) as [first Hfirst].
    { destruct items as [|first rest]; [contradiction|]. now exists first. }
    assert (forall k item, first_highlighted items k item ->
              target = Some (ItemButton k (id item))) as Hhl.
    { intros k item Hfh. subst target. unfold Legend.getNextFocusTarget.
      rewrite (findIndex_first_highlighted items k item Hfh), at_index_buttons.
      destruct Hfh as [-> _]. reflexivity. }
    assert ((forall item, In item items -> highlighted item = false) ->
              target = Some (ItemButton 0 (id first))) as Hnone.
    { intros Hall. subst target. unfold Legend.getNextFocusTarget, findIndex.
      rewrite (findIndex_from_none _ _ _ Hall).
      change (at_index (buttons items) (-1)) with (@None Element).
      now rewrite at_index_buttons, Hfirst. }
    split; [exact Hhl|]. split; [intros Hall; exists first; auto|].
    assert (exists stop, target = Some stop /\ In stop (buttons items))
      as (stop & Hstop & Hin).
    { subst target. unfold Legend.getNextFocusTarget.
      destruct (at_index (buttons items) (findIndex highlighted items)) as [b|] eqn:E.
      - exists b. split; [reflexivity|]. now apply at_index_In in E.
      - rewrite at_index_buttons, Hfirst. eexists. split; [reflexivity|].
        apply (at_index_In _ 0). now rewrite at_index_buttons, Hfirst. }
    exists stop. split; [assumption|]. rewrite Hstop.
    now apply sole_tab_stop_of_target.
  - intros items selectedIndex target. subst target.
    unfold ListLegend.getNextFocusTarget. rewrite at_index_buttons. split.
    + intros item Hitem. rewrite Hitem. split; [reflexivity|].
      apply sole_tab_stop_of_target. apply (at_index_In _ selectedIndex).
      now rewrite at_index_buttons, Hitem.
    + intros ->. split; [reflexivity|]. intros button.
      unfold tabIndex. now rewrite decide_False by discriminate.
Qed.

Example tab_stop_follows_highlight :
  Legend.getNextFocusTarget (Some (buttons a_then_highlighted_b)) a_then_highlighted_b
  = Some (ItemButton 1 "b").
Proof. reflexivity. Qed.

Example tab_stop_at_selected_index :
  ListLegend.getNextFocusTarget (Some (buttons a_then_highlighted_b)) 0
  = Some (ItemButton 0 "a").
Proof. reflexivity. Qed.

Lemma tab_stop_resolution_witness :
  Legend.getNextFocusTarget (Some (buttons a_then_highlighted_b)) a_then_highlighted_b
  = Some (ItemButton 1 (id item_b_highlighted)).
Proof.
  refine (proj1 (proj1 tab_stop_resolution a_then_highlighted_b _) 1 item_b_highlighted _).
  - discriminate.
  - split; [reflexivity|]. split; [reflexivity|].
    intros j other Hj Hother. apply at_index_nat in Hother as [Hpos Hother].
    replace j with 0 in Hother by lia. simpl in Hother. now injection Hother as <-.
Defined.

(** C4 as stated fails on the single-list legend: with item b highlighted
    and the focus index still 0, its focus target is the button of item a. *)
Lemma tab_stop_highlight_counterexample :
  ~ (forall (items : list LegendItem) (selectedIndex k : Z) (item : LegendItem),
       0 <= selectedIndex < Z.of_nat (length items) ->
       first_highlighted items k item ->
       ListLegend.getNextFocusTarget (Some (buttons items)) selectedIndex
       = Some (ItemButton k (id item))).
Proof.
  intros Hclaim.
  specialize (Hclaim a_then_highlighted_b 0 1 item_b_highlighted).
  assert (ListLegend.getNextFocusTarget (Some (buttons a_then_highlighted_b)) 0
          = Some (ItemButton 1 (id item_b_highlighted))) as Habs.
  { apply Hclaim; [simpl; lia|].
    split; [reflexivity|]. split; [reflexivity|].
    intros j other Hj Hother. apply at_index_nat in Hother as [Hpos Hother].
    replace j with 0 in Hother by lia. simpl in Hother. now injection Hother as <-. }
  discriminate Habs.
Qed.

(** ** DebouncedCall *)

Section DebouncedCallFacts.
Context {A : Type}.
Implicit Types (dc : DebouncedCall.t A) (o : DebouncedCall.op A).

Lemma advance_lockedUntil now dc :
  DebouncedCall.lockedUntil (snd (DebouncedCall.advance now dc))
  = DebouncedCall.lockedUntil dc.
Proof.
  unfold DebouncedCall.advance. destruct (DebouncedCall.pending dc) as [[due a]|];
    [destruct (due <=? now)|]; reflexivity.
Qed.

Lemma apply_op_lockedUntil now o dc :
  is_lock o = false ->
  DebouncedCall.lockedUntil (DebouncedCall.apply_op now o dc)
  = DebouncedCall.lockedUntil dc.
Proof.
  destruct o; simpl; try discriminate; try reflexivity.
  intros _. unfold DebouncedCall.call. now destruct (DebouncedCall.locked now dc).
Qed.

Lemma run_lockedUntil (ops : list (Z * DebouncedCall.op A)) dc :
  Forall (fun e => is_lock (snd e) = false) ops ->
  DebouncedCall.lockedUntil (snd (DebouncedCall.run ops dc))
  = DebouncedCall.lockedUntil dc.
Proof.
  intros Hops. revert dc. induction Hops as [|[now o] ops Ho _ IH]; intros dc; [reflexivity|].
  cbn [DebouncedCall.run].
  destruct (DebouncedCall.advance now dc) as [fired dc1] eqn:Eadv.
  specialize (IH (DebouncedCall.apply_op now o dc1)).
  destruct (DebouncedCall.run ops (DebouncedCall.apply_op now o dc1)) as [later dc2].
  simpl in *. rewrite IH, (apply_op_lockedUntil now o dc1 Ho).
  change dc1 with (snd (fired, dc1)). rewrite <- Eadv. apply advance_lockedUntil.
Qed.


(** A [call] on a locked instance leaves it as it is. *)
Lemma call_locked a d now dc :
  DebouncedCall.locked now dc = true -> DebouncedCall.call a d now dc = dc.
Proof. intros H. unfold DebouncedCall.call. now rewrite H. Qed.

Lemma locked_until now dc expiry :
  DebouncedCall.lockedUntil dc = Some expiry -> now < expiry ->
  DebouncedCall.locked now dc = true.
Proof. intros H Hlt. unfold DebouncedCall.locked. rewrite H. now apply Z.ltb_lt. Qed.

End DebouncedCallFacts.

(** C6, as the model has it.  On a [DebouncedCall] instance that is not
    locked when the calls are issued, after [call f1 d] at [t0] and
    [call f2 d] at [t1], before [d] has elapsed, nothing fires until
    [t1 + d], and once the clock has reached [t1 + d] exactly one action has
    fired, [f2]; nothing stays pending, so [f1] never fires. *)
Theorem second_call_wins :
  forall (A : Type) (dc : DebouncedCall.t A) (f1 f2 : A) (d t0 t1 t : Z),
    DebouncedCall.locked t0 dc = false ->
    t0 <= t1 < t0 + d ->
    (t1 <= t < t1 + d -> fst (fired_after_two_calls dc f1 f2 d t0 t1 t) = []) /\
    (t1 + d <= t ->
       fst (fired_after_two_calls dc f1 f2 d t0 t1 t) = [f2] /\
       DebouncedCall.pending (snd (fired_after_two_calls dc f1 f2 d t0 t1 t)) = None).
Proof.
  intros A dc f1 f2 d t0 t1 t Hunlocked Ht1.
  unfold fired_after_two_calls, DebouncedCall.call. rewrite Hunlocked.
  assert (DebouncedCall.locked t1 dc = false) as Hstill.
  { unfold DebouncedCall.locked in *. destruct (DebouncedCall.lockedUntil dc); [|reflexivity].
    apply Z.ltb_ge. apply Z.ltb_ge in Hunlocked. lia. }
  cbn [DebouncedCall.run DebouncedCall.advance DebouncedCall.pending].
  destruct (Z.leb_spec (t0 + d) t1) as [?|_]; [lia|].
  cbn [DebouncedCall.apply_op]. unfold DebouncedCall.call, DebouncedCall.locked in *.
  cbn [DebouncedCall.lockedUntil DebouncedCall.cancelPrevious] in *. rewrite Hstill.
  cbn [DebouncedCall.advance DebouncedCall.pending].
  split; intros Ht.
  - destruct (Z.leb_spec (t1 + d) t) as [?|_]; [lia|]. reflexivity.
  - destruct (Z.leb_spec (t1 + d) t) as [_|?]; [|lia]. split; reflexivity.
Qed.

Example two_calls_50 :
  fired_after_two_calls DebouncedCall.create "first" "second" 50 0 10 60
  = (["second"], DebouncedCall.create).
Proof. reflexivity. Qed.

Lemma second_call_wins_witness :
  fst (fired_after_two_calls DebouncedCall.create "first"%string "second"%string 50 0 10 60)
  = ["second"%string].
Proof.
  refine (proj1 (proj2 (second_call_wins string DebouncedCall.create "first" "second"
                          50 0 10 60 _ _) _)).
  - reflexivity.
  - lia.
  - lia.
Defined.

(** C6 as stated fails on a locked instance: both calls are dropped and
    nothing fires. *)
Lemma second_call_locked_counterexample :
  ~ (forall (dc : DebouncedCall.t string) (f1 f2 : string) (d t0 t1 t : Z),
       t0 <= t1 < t0 + d -> t1 + d <= t ->
       fst (fired_after_two_calls dc f1 f2 d t0 t1 t) = [f2]).
Proof.
  intros Hclaim.
  specialize (Hclaim locked_instance "first"%string "second"%string 50 0 10 60).
  assert (fst (fired_after_two_calls locked_instance "first"%string "second"%string
                 50 0 10 60) = ["second"%string]) as Habs by (apply Hclaim; lia).
  discriminate Habs.
Qed.

(** ** The debounced tooltip and the Escape key *)


Lemma hideTooltip_same : ListLegend.hideTooltip = Legend.onHideTooltip.
Proof. reflexivity. Qed.

Lemma document_handlers_same keydown :
  In keydown document_handlers -> keydown = Legend.documentKeyDown.
Proof. intros [<-|[<-|[]]]; reflexivity. Qed.

Lemma document_listeners_same listener :
  In listener document_listeners -> listener = Legend.documentListener.
Proof. intros [<-|[<-|[]]]; reflexivity. Qed.

Lemma truthy_Some (itemId : string) : itemId <> ""%string -> truthy (Some itemId) = true.
Proof.
  intros Hne. unfold truthy. destruct (String.eqb_spec itemId ""); [contradiction|reflexivity].
Qed.

Lemma documentKeyDown_escape (items : list LegendItem) (st : State) (itemId : string)
    (now : Z) :
  tooltipItemId st = Some itemId -> itemId <> ""%string ->
  Legend.documentKeyDown items KeyCode.escape now st
  = focus (Legend.focusEvent items now) (Legend.blurEvent now) (registry st !! itemId)
      (Legend.onHideTooltip true now st).
Proof.
  intros Hid Hne. unfold Legend.documentKeyDown, Legend.documentListener.
  rewrite Hid, (truthy_Some itemId Hne). cbn. now destruct st.
Qed.

Lemma documentKeyDown_not_installed (items : list LegendItem) (st : State) (key : KeyCode.t)
    (now : Z) :
  truthy (tooltipItemId st) = false -> Legend.documentKeyDown items key now st = st.
Proof.
  intros Hfalsy. unfold Legend.documentKeyDown, Legend.documentListener.
  now rewrite Hfalsy.
Qed.

Lemma set_tooltipControl_same (st : State) : set_tooltipControl (tooltipControl st) st = st.
Proof. now destruct st. Qed.


Lemma tooltipItemId_runTimers (now : Z) (st : State) :
  tooltipItemId (runTimers now st)
  = fold_left (fun _ v => v) (fst (DebouncedCall.advance now (tooltipControl st)))
      (tooltipItemId st).
Proof.
  unfold runTimers. destruct (DebouncedCall.advance now (tooltipControl st)) as [tips tc].
  now destruct (DebouncedCall.advance now (highlightControl st)) as [exits hc].
Qed.

(** The controller right after a hide-with-lock on an unlocked controller:
    the hide is pending and the lock runs, both until [now + delay]. *)
Lemma onHideTooltip_lock_unlocked (now : Z) (st : State) :
  DebouncedCall.locked now (tooltipControl st) = false ->
  tooltipControl (Legend.onHideTooltip true now st)
  = DebouncedCall.mk (Some (now + TOOLTIP_BLUR_DELAY, None))
      (Some (now + TOOLTIP_BLUR_DELAY)).
Proof.
  intros Hunlocked. destruct st as [tip stack tc hc reg active out sel]. simpl in *.
  unfold DebouncedCall.call. now rewrite Hunlocked.
Qed.

(** A hide-with-lock locks the controller until [now + delay], whatever it
    was before. *)
Lemma onHideTooltip_locks (now now' : Z) (st : State) :
  now' < now + TOOLTIP_BLUR_DELAY ->
  DebouncedCall.locked now' (tooltipControl (Legend.onHideTooltip true now st)) = true.
Proof.
  intros Hlt. apply (locked_until now' _ (now + TOOLTIP_BLUR_DELAY)); [|assumption].
  now destruct st.
Qed.

(** A show or a hide without lock issued while the tooltip controller is
    locked changes nothing. *)
Lemma onShowTooltip_locked (x : string) (now : Z) (st : State) :
  DebouncedCall.locked now (tooltipControl st) = true ->
  Legend.onShowTooltip x now st = st.
Proof.
  intros Hlocked. unfold Legend.onShowTooltip.
  rewrite (call_locked _ _ _ _ Hlocked). apply set_tooltipControl_same.
Qed.

Lemma onHideTooltip_locked (now : Z) (st : State) :
  DebouncedCall.locked now (tooltipControl st) = true ->
  Legend.onHideTooltip false now st = st.
Proof.
  intros Hlocked. unfold Legend.onHideTooltip.
  rewrite (call_locked _ _ _ _ Hlocked). apply set_tooltipControl_same.
Qed.

(** While the tooltip controller is locked, the events of a focus change
    leave the controller and the tooltip id as they are. *)
Lemma focus_locked_keeps_tooltip (items : list LegendItem) (now : Z) (e : option Element)
    (st : State) :
  DebouncedCall.locked now (tooltipControl st) = true ->
  tooltipControl (focus (Legend.focusEvent items now) (Legend.blurEvent now) e st)
  = tooltipControl st /\
  tooltipItemId (focus (Legend.focusEvent items now) (Legend.blurEvent now) e st)
  = tooltipItemId st.
Proof.
  intros Hlocked. unfold focus. destruct e as [el|]; [|now split].
  destruct (bool_decide (activeElement st = Some el)); [now split|].
  assert (match activeElement st with
          | Some previous => Legend.blurEvent now previous (Some el) st
          | None => st
          end = st) as ->.
  { destruct (activeElement st) as [[index itemid|n|n]|]; try reflexivity.
    cbn. now apply onHideTooltip_locked. }
  destruct el as [index itemid|n|n]; try (now split).
  unfold Legend.focusEvent, Legend.onFocus.
  destruct (onShowHighlight_keeps items itemid (set_activeElement (Some (ItemButton index itemid)) st))
    as (_ & _ & Hcontrol & Htip & _).
  rewrite onShowTooltip_locked by (rewrite Hcontrol; exact Hlocked).
  cbn. now rewrite Hcontrol, Htip.
Qed.

(** With a tooltip shown for a non-empty id, Escape anywhere in the
    document requests a locked tooltip hide (a debounced hide, then a lock,
    both of [TOOLTIP_BLUR_DELAY]) and moves the focus to the element
    registered for that id; the focus event of that element cannot re-open
    the tooltip, the controller being locked.  With no tooltip id, or the
    empty one, no listener is installed and a key changes nothing. *)
Lemma escape_hides_and_refocuses :
  (forall keydown, In keydown document_handlers ->
   forall (items : list LegendItem) (st : State) (itemId : string) (now : Z),
     tooltipItemId st = Some itemId -> itemId <> ""%string ->
     let st' := keydown items KeyCode.escape now st in
     tooltipControl st'
     = DebouncedCall.lock TOOLTIP_BLUR_DELAY now
         (DebouncedCall.call None TOOLTIP_BLUR_DELAY now (tooltipControl st)) /\
     (forall now', now' < now + TOOLTIP_BLUR_DELAY ->
        DebouncedCall.locked now' (tooltipControl st') = true) /\
     (forall e, registry st !! itemId = Some e -> activeElement st' = Some e)) /\
  (forall listener, In listener document_listeners ->
   forall items : list LegendItem,
     listener items None = None /\ listener items (Some ""%string) = None) /\
  (forall keydown, In keydown document_handlers ->
   forall (items : list LegendItem) (st : State) (key : KeyCode.t) (now : Z),
     tooltipItemId st = None \/ tooltipItemId st = Some ""%string ->
     keydown items key now st = st).
Proof.
  split; [|split].
  - intros keydown Hin items st itemId now Hid Hne st'. subst st'.
    rewrite (document_handlers_same keydown Hin),
      (documentKeyDown_escape items st itemId now Hid Hne).
    assert (DebouncedCall.locked now (tooltipControl (Legend.onHideTooltip true now st)) = true)
      as Hlocked by (apply onHideTooltip_locks; unfold TOOLTIP_BLUR_DELAY; lia).
    destruct (focus_locked_keeps_tooltip items now (registry st !! itemId) _ Hlocked)
      as [-> _].
    split; [now destruct st|]. split.
    + intros now' Hnow'. now apply onHideTooltip_locks.
    + intros e ->. apply focus_lands.
  - intros listener Hin items. rewrite (document_listeners_same listener Hin).
    split; reflexivity.
  - intros keydown Hin items st key now Hfalsy. rewrite (document_handlers_same keydown Hin).
    apply documentKeyDown_not_installed. now destruct Hfalsy as [->| ->].
Qed.

Example escape_refocuses_b :
  activeElement (Legend.documentKeyDown abc KeyCode.escape 1000 tooltip_on_b)
  = Some (ItemButton 1 "b").
Proof. vm_compute. reflexivity. Qed.

(** C5, where the code departs from it.  The guard of the effect is
    [!tooltipItemId], which is also true of the empty string: for an item
    whose id is the empty string the tooltip id is not null and
    [tooltipTarget], which compares with [===], finds the item, so its
    tooltip is rendered whenever the resolver gives content; yet no
    document listener is installed, and Escape, like every key, leaves the
    state as it is: no hide is requested and the focus does not move. *)
Theorem escape_ignores_empty_id :
  forall (C : Type) (getTooltipContent : LegendItem -> option C) (rest : list LegendItem)
         (st : State) (now : Z),
    let items := item_empty_id :: rest in
    let shown := set_tooltipItemId (Some ""%string) st in
    Legend.tooltipTarget items (tooltipItemId shown) = Some item_empty_id /\
    Legend.tooltipContent getTooltipContent items (tooltipItemId shown)
    = getTooltipContent item_empty_id /\
    Legend.documentListener items (tooltipItemId shown) = None /\
    ListLegend.documentListener items (tooltipItemId shown) = None /\
    Legend.documentKeyDown items KeyCode.escape now shown = shown /\
    ListLegend.documentKeyDown items KeyCode.escape now shown = shown.
Proof.
  intros C getTooltipContent rest st now items shown. subst items shown.
  repeat split; reflexivity.
Qed.

Example escape_with_empty_id :
  Legend.documentKeyDown [item_empty_id] KeyCode.escape 1000 tooltip_on_empty_id
  = tooltip_on_empty_id.
Proof. reflexivity. Qed.





Example show_after_escape_stays_hidden :
  tooltipItemId
    (runTimers 1060
       (Legend.onShowTooltip "a" 1010
          (runTimers 1010 (Legend.documentKeyDown abc KeyCode.escape 1000 tooltip_on_b))))
  = None.
Proof. vm_compute. reflexivity. Qed.

(** ** Layout *)

Lemma Qlt_bool_true (a b : Q) : (a < b)%Q -> Qlt_bool a b = true.
Proof.
  intros Hlt. unfold Qlt_bool. destruct (Qle_bool b a) eqn:E; [|reflexivity].
  apply Qle_bool_iff in E. now apply Qlt_not_le in Hlt.
Qed.

Lemma Qlt_bool_false (a b : Q) : (b <= a)%Q -> Qlt_bool a b = false.
Proof. intros Hle. unfold Qlt_bool. apply Qle_bool_iff in Hle. now rewrite Hle. Qed.

Lemma Qle_bool_false (a b : Q) : (b < a)%Q -> Qle_bool a b = false.
Proof.
  intros Hlt. destruct (Qle_bool a b) eqn:E; [|reflexivity].
  apply Qle_bool_iff in E. now apply Qlt_not_le in Hlt.
Qed.

Lemma shouldStack_onResize (width : Q) (st : State) :
  shouldStack (Legend.onResize [Some width] st) = Qlt_bool width (400 # 1).
Proof. now destruct st. Qed.

Lemma useContainerQuery_narrow (width : Q) :
  (width < 400 # 1)%Q -> ListLegend.useContainerQuery (Some width) = true.
Proof. intros Hlt. apply Qle_bool_iff. now apply Qlt_le_weak. Qed.

Lemma isStacked_shouldStack (type : ListLegend.ChartLegendType) :
  ListLegend.isStacked type true = true.
Proof. unfold ListLegend.isStacked. apply orb_true_r. Qed.

Lemma render_row_stacks (type : Legend.LegendType) (pos : Legend.Position)
    (items : list LegendItem) (default opposite : Legend.Group) :
  Legend.render type pos false items = Legend.DualAxisContainer default opposite ->
  Legend.render type pos true items
  = stacked_column (Legend.items default) (Legend.items opposite).
Proof.
  unfold Legend.render, Legend.sideGroups. destruct pos; [|discriminate].
  destruct (length (Legend.oppositeItems type items)) as [|n] eqn:Elen; simpl; [discriminate|].
  intros Hrow. injection Hrow as <- <-. reflexivity.
Qed.

(** C8.  For every measured container width strictly below 400 px: the
    grouped legend arranges as a stacked column, same groups and same
    items in the same order, whatever type and position would otherwise put
    the two axis groups side by side in a row; the single-list legend is
    stacked for every type, its items unchanged.  In particular, going from
    a width of at least 400 px (above 400 px for the single-list legend) to
    one below 400 px turns the side-by-side dual-axis layout (type
    "bottom-right" of the single-list legend) into the stacked one without
    changing the items of a group or their order. *)
Theorem narrow_container_stacks :
  (forall (narrow : Q) (type : Legend.LegendType) (pos : Legend.Position)
          (items : list LegendItem) (st : State) (default opposite : Legend.Group),
     (narrow < 400 # 1)%Q ->
     Legend.render type pos false items = Legend.DualAxisContainer default opposite ->
     Legend.render type pos (shouldStack (Legend.onResize [Some narrow] st)) items
     = stacked_column (Legend.items default) (Legend.items opposite)) /\
  (forall (narrow : Q) (type : ListLegend.ChartLegendType) (items : list LegendItem),
     (narrow < 400 # 1)%Q ->
     ListLegend.render type (ListLegend.useContainerQuery (Some narrow)) items
     = ListLegend.mkView true false false (ListLegend.filteredItems type items)) /\
  (forall (wide narrow : Q) (type : Legend.LegendType) (items : list LegendItem) (st : State),
     (400 # 1 <= wide)%Q -> (narrow < 400 # 1)%Q ->
     Legend.oppositeItems type items <> [] ->
     let measured_wide := Legend.onResize [Some wide] st in
     let measured_narrow := Legend.onResize [Some narrow] measured_wide in
     Legend.render type Legend.bottom (shouldStack measured_wide) items
     = side_by_side (Legend.defaultItems type items) (Legend.oppositeItems type items) /\
     Legend.render type Legend.bottom (shouldStack measured_narrow) items
     = stacked_column (Legend.defaultItems type items) (Legend.oppositeItems type items)) /\
  (forall (wide narrow : Q) (items : list LegendItem),
     (400 # 1 < wide)%Q -> (narrow < 400 # 1)%Q ->
     ListLegend.render ListLegend.bottom_right (ListLegend.useContainerQuery (Some wide)) items
     = ListLegend.mkView false true true (List.filter (fun item => oppositeAxis item) items) /\
     ListLegend.render ListLegend.bottom_right (ListLegend.useContainerQuery (Some narrow)) items
     = ListLegend.mkView true false false (List.filter (fun item => oppositeAxis item) items)).
Proof.
  split; [|split; [|split]].
  - intros narrow type pos items st default opposite Hnarrow Hrow.
    rewrite shouldStack_onResize, (Qlt_bool_true _ _ Hnarrow).
    now apply render_row_stacks.
  - intros narrow type items Hnarrow. unfold ListLegend.render.
    rewrite (useContainerQuery_narrow narrow Hnarrow).
    unfold ListLegend.isBottomRightNotStacked.
    rewrite isStacked_shouldStack, andb_false_r. reflexivity.
  - intros wide narrow type items st Hwide Hnarrow Hopp measured_wide measured_narrow.
    subst measured_narrow measured_wide.
    rewrite !shouldStack_onResize, (Qlt_bool_true _ _ Hnarrow), (Qlt_bool_false _ _ Hwide).
    unfold Legend.render, Legend.sideGroups.
    destruct (Legend.oppositeItems type items) as [|o rest]; [contradiction|].
    split; reflexivity.
  - intros wide narrow items Hwide Hnarrow. unfold ListLegend.render.
    rewrite (useContainerQuery_narrow narrow Hnarrow).
    unfold ListLegend.useContainerQuery, ListLegend.SHOULD_STACK_SIZE.
    rewrite (Qle_bool_false _ _ Hwide). split; reflexivity.
Qed.

Example bottom_right_500 :
  ListLegend.render ListLegend.bottom_right (ListLegend.useContainerQuery (Some width_500)) abc
  = ListLegend.mkView false true true [item_c].
Proof. reflexivity. Qed.

Example bottom_right_300 :
  ListLegend.render ListLegend.bottom_right (ListLegend.useContainerQuery (Some width_300)) abc
  = ListLegend.mkView true false false [item_c].
Proof. reflexivity. Qed.

Example dual_bottom_500_then_300 :
  Legend.render Legend.dual Legend.bottom
    (shouldStack (Legend.onResize [Some width_500] initial)) abc
  = side_by_side [item_a; item_b] [item_c] /\
  Legend.render Legend.dual Legend.bottom
    (shouldStack (Legend.onResize [Some width_300] (Legend.onResize [Some width_500] initial)))
    abc
  = stacked_column [item_a; item_b] [item_c].
Proof. split; reflexivity. Qed.

Lemma narrow_container_stacks_witness :
  ListLegend.render ListLegend.bottom_right (ListLegend.useContainerQuery (Some width_500)) abc
  = ListLegend.mkView false true true (List.filter (fun item => oppositeAxis item) abc) /\
  ListLegend.render ListLegend.bottom_right (ListLegend.useContainerQuery (Some width_300)) abc
  = ListLegend.mkView true false false (List.filter (fun item => oppositeAxis item) abc).
Proof.
  apply (proj2 (proj2 (proj2 narrow_container_stacks))); reflexivity.
Defined.

(** ** Blur *)

(** C9, where the code departs from it.  [tooltipRef] is never attached to
    an element, so [tooltipRef.current] is null at every blur, and then a
    blur towards any element schedules neither the clear-highlight nor the
    tooltip hide: the state is unchanged.  The same holds, whatever
    [tooltipRef] is, when the blur has no [relatedTarget]. *)
Theorem blur_without_tooltip_ref_fires_nothing :
  forall (tooltip : option (list Element)) (target : Element) (now : Z) (st : State),
    Legend.onBlur None (Some target) now st = st /\
    ListLegend.onBlur None (Some target) now st = st /\
    Legend.onBlur tooltip None now st = st /\
    ListLegend.onBlur tooltip None now st = st.
Proof.
  intros tooltip target now st. repeat split; try reflexivity; now destruct tooltip.
Qed.

(** What the comment in [onBlur] describes, reached only with a tooltip
    node in [tooltipRef]: a blur towards an element outside the tooltip
    schedules both the clear-highlight and the hide. *)
Example blur_outside_attached_tooltip :
  let st := Legend.onBlur (Some [TooltipNode 0; TooltipNode 1]) (Some (ItemButton 1 "b"))
              1000 tooltip_on_b in
  DebouncedCall.pending (highlightControl st) = Some (1050, ItemHighlightExit) /\
  DebouncedCall.pending (tooltipControl st) = Some (1050, None).
Proof. vm_compute. split; reflexivity. Qed.

Example blur_into_attached_tooltip :
  Legend.onBlur (Some [TooltipNode 0; TooltipNode 1]) (Some (TooltipNode 1)) 1000 tooltip_on_b
  = tooltip_on_b.
Proof. vm_compute. reflexivity. Qed.

(** * Further properties of the components *)

(** ** Axis partition and what the root renders *)

Lemma filter_split_Permutation {A : Type} (p : A -> bool) (l : list A) :
  List.filter (fun x => negb (p x)) l ++ List.filter p l ≡ₚ l.
Proof.
  induction l as [|a l IH]; [reflexivity|]. cbn [List.filter].
  destruct (p a); cbn [negb app].
  - rewrite <- Permutation_middle. now constructor.
  - now constructor.
Qed.

Lemma filter_sublist {A : Type} (p : A -> bool) (l : list A) :
  sublist (List.filter p l) l.
Proof.
  induction l as [|a l IH]; [constructor|]. cbn [List.filter].
  destruct (p a); now constructor.
Qed.

Lemma filter_idempotent {A : Type} (p : A -> bool) (l : list A) :
  List.filter p (List.filter p l) = List.filter p l.
Proof.
  induction l as [|a l IH]; [reflexivity|]. cbn [List.filter].
  destruct (p a) eqn:E; [|exact IH]. cbn [List.filter]. now rewrite E, IH.
Qed.

(** The two axis groups split the item list: together they hold every
    item exactly once, each keeps the order of the list, the opposite
    group holds only opposite-axis items and, for a dual legend, the
    default group holds none; a single legend has no opposite group. *)
Theorem axis_groups_partition :
  forall (type : Legend.LegendType) (items : list LegendItem),
    Legend.defaultItems type items ++ Legend.oppositeItems type items ≡ₚ items /\
    sublist (Legend.defaultItems type items) items /\
    sublist (Legend.oppositeItems type items) items /\
    (forall item, In item (Legend.oppositeItems type items) -> oppositeAxis item = true) /\
    (type = Legend.dual ->
     forall item, In item (Legend.defaultItems type items) -> oppositeAxis item = false) /\
    (type = Legend.single ->
     Legend.defaultItems type items = items /\ Legend.oppositeItems type items = []).
Proof.
  intros type items. destruct type; cbn [Legend.defaultItems Legend.oppositeItems].
  - rewrite app_nil_r. repeat split; try reflexivity; try discriminate.
    + apply sublist_nil_l.
    + intros item [].
  - split; [apply (filter_split_Permutation oppositeAxis)|].
    split; [apply filter_sublist|]. split; [apply filter_sublist|].
    split; [|split; [|discriminate]].
    + intros item Hin. now apply filter_In in Hin.
    + intros _ item Hin. apply filter_In in Hin as [_ H]. now apply negb_true_iff in H.
Qed.

(** Whatever the type, the position and the stacking decision, the groups
    the root renders hold every item exactly once; there are at most two
    groups, and a second group is never empty. *)
Theorem render_keeps_every_item :
  forall (type : Legend.LegendType) (pos : Legend.Position) (stack : bool)
         (items : list LegendItem),
    let groups := groups_of (Legend.render type pos stack items) in
    concat (map Legend.items groups) ≡ₚ items /\
    (1 <= length groups <= 2)%nat /\
    (forall g, In g (tail groups) -> Legend.items g <> []).
Proof.
  intros type pos stack items groups. subst groups.
  pose proof (proj1 (axis_groups_partition type items)) as Hperm.
  unfold Legend.render, Legend.sideGroups.
  destruct (Legend.oppositeItems type items) as [|o rest] eqn:Eopp.
  - rewrite app_nil_r in Hperm.
    destruct pos; cbn; rewrite app_nil_r; (split; [exact Hperm|]); (split; [lia|]);
      intros g [].
  - destruct pos; [destruct stack|]; cbn; rewrite app_nil_r;
      (split; [exact Hperm|]); (split; [lia|]);
      intros g [<-|[]]; discriminate.
Qed.

(** ** The element registries *)

Lemma mount_from_byIndex_outside (items : list LegendItem) (k j : Z) (r : Registries) :
  j < k \/ k + Z.of_nat (length items) <= j ->
  elementsByIndex (mount_from items k r) !! j = elementsByIndex r !! j.
Proof.
  revert k r. induction items as [|item items IH]; intros k r Hout; [reflexivity|].
  cbn [mount_from]. cbn [length] in Hout. rewrite IH by lia.
  cbn. apply lookup_insert_ne. lia.
Qed.

Lemma mount_from_byId_outside (items : list LegendItem) (k : Z) (key : string)
    (r : Registries) :
  ~ In key (map id items) ->
  elementsById (mount_from items k r) !! key = elementsById r !! key.
Proof.
  revert k r. induction items as [|item items IH]; intros k r Hout; [reflexivity|].
  cbn [mount_from]. cbn [map In] in Hout. rewrite IH by tauto.
  cbn. apply lookup_insert_ne. tauto.
Qed.

Lemma mount_from_byId (items : list LegendItem) (k : Z) (r : Registries) (i : nat)
    (item : LegendItem) :
  List.NoDup (map id items) -> items !! i = Some item ->
  elementsById (mount_from items k r) !! id item
  = Some (ItemButton (k + Z.of_nat i) (id item)).
Proof.
  revert k r i. induction items as [|first items IH]; intros k r i Hnd Hi; [discriminate|].
  cbn [map] in Hnd. inversion Hnd as [|? ? Hfresh Hnd']; subst.
  destruct i as [|i]; cbn [mount_from].
  - injection Hi as ->. rewrite mount_from_byId_outside by assumption.
    cbn. rewrite Z.add_0_r. apply lookup_insert_eq.
  - rewrite Nat2Z.inj_succ.
    replace (k + Z.succ (Z.of_nat i)) with ((k + 1) + Z.of_nat i) by lia.
    apply IH; assumption.
Qed.

Lemma unmount_from_byIndex_outside (items : list LegendItem) (k j : Z) (r : Registries) :
  j < k \/ k + Z.of_nat (length items) <= j ->
  elementsByIndex (unmount_from items k r) !! j = elementsByIndex r !! j.
Proof.
  revert k r. induction items as [|item items IH]; intros k r Hout; [reflexivity|].
  cbn [unmount_from]. cbn [length] in Hout. rewrite IH by lia.
  cbn. apply lookup_delete_ne. lia.
Qed.

Lemma unmount_from_byIndex_inside (items : list LegendItem) (k j : Z) (r : Registries) :
  k <= j < k + Z.of_nat (length items) ->
  elementsByIndex (unmount_from items k r) !! j = None.
Proof.
  revert k r. induction items as [|item items IH]; intros k r Hin; cbn [length] in Hin; [lia|].
  cbn [unmount_from]. destruct (decide (j = k)) as [->|Hne].
  - rewrite unmount_from_byIndex_outside by lia. cbn. apply lookup_delete_eq.
  - apply IH. lia.
Qed.

Lemma unmount_from_byId_outside (items : list LegendItem) (k : Z) (key : string)
    (r : Registries) :
  ~ In key (map id items) ->
  elementsById (unmount_from items k r) !! key = elementsById r !! key.
Proof.
  revert k r. induction items as [|item items IH]; intros k r Hout; [reflexivity|].
  cbn [unmount_from]. cbn [map In] in Hout. rewrite IH by tauto.
  cbn. apply lookup_delete_ne. tauto.
Qed.

Lemma unmount_from_byId_inside (items : list LegendItem) (k : Z) (key : string)
    (r : Registries) :
  In key (map id items) ->
  elementsById (unmount_from items k r) !! key = None.
Proof.
  revert k r. induction items as [|item items IH]; intros k r Hin; [destruct Hin|].
  cbn [unmount_from]. destruct (in_dec String.string_dec key (map id items)) as [Hlater|Hnot].
  - now apply IH.
  - rewrite unmount_from_byId_outside by assumption. cbn.
    cbn [map In] in Hin. destruct Hin as [<-|Hin]; [apply lookup_delete_eq | contradiction].
Qed.

(** Once a list with unique ids is mounted, the id registry and the index
    registry agree: the id of the item displayed at index [j] and the
    index [j] both lead to the button of that item; keys that belong to no
    item of the list are left as they were. *)
Theorem mounted_registries_agree :
  forall (items : list LegendItem) (r : Registries) (j : Z) (item : LegendItem),
    List.NoDup (map id items) -> at_index items j = Some item ->
    elementsById (mount items r) !! id item = Some (ItemButton j (id item)) /\
    elementsByIndex (mount items r) !! j = Some (ItemButton j (id item)) /\
    (forall key, ~ In key (map id items) ->
       elementsById (mount items r) !! key = elementsById r !! key).
Proof.
  intros items r j item Hnd Hitem. split; [|split].
  - apply at_index_nat in Hitem as [Hj Hitem].
    unfold mount. rewrite (mount_from_byId items 0 r (Z.to_nat j) item Hnd Hitem).
    now rewrite Z.add_0_l, Z2Nat.id by assumption.
  - now apply mount_lookup.
  - intros key Hkey. now apply mount_from_byId_outside.
Qed.

Lemma mounted_registries_agree_witness :
  elementsById (mount abc no_registries) !! id item_c = Some (ItemButton 2 (id item_c)).
Proof.
  refine (proj1 (mounted_registries_agree abc no_registries 2 item_c _ _)).
  - exact abc_NoDup.
  - reflexivity.
Defined.

(** Mounting a list and unmounting it again leaves no entry behind: every
    index and every id of the list is absent from the registries, every
    other key is as before; from empty registries the result is empty. *)
Theorem unmount_after_mount :
  forall (items : list LegendItem) (r : Registries),
    let after := unmount items (mount items r) in
    (forall j, 0 <= j < Z.of_nat (length items) -> elementsByIndex after !! j = None) /\
    (forall item, In item items -> elementsById after !! id item = None) /\
    (forall j, j < 0 \/ Z.of_nat (length items) <= j ->
       elementsByIndex after !! j = elementsByIndex r !! j) /\
    (forall key, ~ In key (map id items) ->
       elementsById after !! key = elementsById r !! key) /\
    unmount items (mount items no_registries) = no_registries.
Proof.
  intros items r after. subst after. unfold unmount, mount.
  assert (forall r0 j, 0 <= j < Z.of_nat (length items) ->
            elementsByIndex (unmount_from items 0 r0) !! j = None) as Hidx.
  { intros r0 j Hj. apply unmount_from_byIndex_inside. lia. }
  assert (forall r0 key, In key (map id items) ->
            elementsById (unmount_from items 0 r0) !! key = None) as Hid.
  { intros r0 key Hkey. now apply unmount_from_byId_inside. }
  split; [intros j Hj; now apply Hidx|].
  split; [intros item Hin; apply Hid; now apply in_map|].
  split.
  { intros j Hj. rewrite unmount_from_byIndex_outside, mount_from_byIndex_outside by lia.
    reflexivity. }
  split.
  { intros key Hkey.
    now rewrite unmount_from_byId_outside, mount_from_byId_outside by assumption. }
  destruct (unmount_from items 0 (mount_from items 0 no_registries)) as [byIndex byId] eqn:E.
  unfold no_registries. f_equal.
  - apply map_eq. intros j. rewrite lookup_empty.
    change byIndex with (elementsByIndex (mkRegistries byIndex byId)). rewrite <- E.
    destruct (decide (0 <= j < Z.of_nat (length items))) as [Hin|Hout].
    + now apply Hidx.
    + rewrite unmount_from_byIndex_outside, mount_from_byIndex_outside by lia.
      apply lookup_empty.
  - apply map_eq. intros key. rewrite lookup_empty.
    change byId with (elementsById (mkRegistries byIndex byId)). rewrite <- E.
    destruct (in_dec String.string_dec key (map id items)) as [Hin|Hout].
    + now apply Hid.
    + rewrite unmount_from_byId_outside, mount_from_byId_outside by assumption.
      apply lookup_empty.
Qed.

Lemma unmount_after_mount_witness :
  elementsById (unmount abc (mount abc no_registries)) !! id item_b = None.
Proof.
  refine (proj1 (proj2 (unmount_after_mount abc no_registries)) item_b _).
  simpl. tauto.
Defined.

(** ** Clicks *)

Lemma click_handlers_same onClick :
  In onClick click_handlers -> onClick = Legend.onClick.
Proof. intros [<-|[<-|[]]]; reflexivity. Qed.

Lemma visibleIds_NoDup (items : list LegendItem) :
  List.NoDup (map id items) -> List.NoDup (visibleIds items).
Proof.
  unfold visibleIds. induction items as [|item items IH]; intros Hnd; [constructor|].
  cbn [map] in Hnd. inversion Hnd as [|? ? Hfresh Hnd']; subst.
  cbn [List.filter]. destruct (visible item); [|now apply IH].
  cbn [map]. constructor; [|now apply IH].
  intros Hin. apply Hfresh. apply in_map_iff in Hin as (z & Hz & Hzin).
  apply filter_In in Hzin as [Hzin _]. rewrite <- Hz. now apply in_map.
Qed.

Lemma visibleIds_incl (items : list LegendItem) : incl (visibleIds items) (map id items).
Proof.
  intros v Hv. unfold visibleIds in Hv. apply in_map_iff in Hv as (z & <- & Hz).
  apply filter_In in Hz as [Hz _]. now apply in_map.
Qed.

(** Whatever the modifier keys, a click on an item of a list with unique
    ids sends exactly one visibility list and then clears the highlight;
    the list has no duplicates and holds only ids of items of the list. *)
Theorem click_sends_wellformed_list :
  forall onClick, In onClick click_handlers ->
  forall (items : list LegendItem) (x : LegendItem) (metaKey ctrlKey : bool),
    List.NoDup (map id items) -> In x items ->
    exists ids,
      onClick items metaKey ctrlKey (id x) = [ItemVisibilityChange ids; ItemHighlightExit] /\
      List.NoDup ids /\ incl ids (map id items).
Proof.
  intros onClick Hin items x metaKey ctrlKey Hnd Hx.
  rewrite (click_handlers_same onClick Hin). unfold Legend.onClick.
  pose proof (visibleIds_NoDup items Hnd) as HndV.
  pose proof (visibleIds_incl items) as HinclV.
  assert (In (id x) (map id items)) as Hidx by now apply in_map.
  destruct (metaKey || ctrlKey).
  - unfold Legend.onToggleItem. fold (visibleIds items).
    destruct (includes (id x) (visibleIds items)) eqn:Einc.
    + eexists. split; [reflexivity|]. split.
      * now apply List.NoDup_filter.
      * intros v Hv. apply filter_In in Hv as [Hv _]. now apply HinclV.
    + eexists. split; [reflexivity|]. split.
      * apply List.NoDup_app; [assumption | repeat constructor; intros [] |].
        intros v Hv [<-|[]]. apply includes_In in Hv. congruence.
      * intros v Hv. apply in_app_iff in Hv as [Hv|[<-|[]]]; [now apply HinclV | assumption].
  - rewrite onSelectItem_by_ids.
    destruct (decide (visibleIds items = [id x])).
    + eexists. split; [reflexivity|]. split; [assumption | apply incl_refl].
    + eexists. split; [reflexivity|]. split.
      * repeat constructor. intros [].
      * intros v [<-|[]]. assumption.
Qed.

Lemma click_sends_wellformed_list_witness :
  exists ids,
    Legend.onClick abc true false (id item_c) = [ItemVisibilityChange ids; ItemHighlightExit] /\
    List.NoDup ids /\ incl ids (map id abc).
Proof.
  apply (click_sends_wellformed_list Legend.onClick (or_introl eq_refl)).
  - exact abc_NoDup.
  - simpl. tauto.
Defined.

Lemma filter_neq_absent (x : string) (xs : list string) :
  ~ In x xs -> List.filter (fun v => negb (String.eqb v x)) xs = xs.
Proof.
  induction xs as [|v xs IH]; intros Hx; [reflexivity|]. cbn [List.filter].
  cbn [In] in Hx. destruct (String.eqb_spec v x) as [->|Hne]; [tauto|].
  cbn [negb]. rewrite IH by tauto. reflexivity.
Qed.

Lemma filter_neq_then_add (x : string) (xs : list string) :
  List.NoDup xs -> In x xs ->
  List.filter (fun v => negb (String.eqb v x)) xs ++ [x] ≡ₚ xs.
Proof.
  induction xs as [|v xs IH]; intros Hnd Hx; [destruct Hx|].
  inversion Hnd as [|? ? Hfresh Hnd']; subst. cbn [List.filter].
  destruct (String.eqb_spec v x) as [->|Hne]; cbn [negb].
  - rewrite filter_neq_absent by assumption.
    rewrite <- Permutation_cons_append. reflexivity.
  - destruct Hx as [->|Hx]; [contradiction|].
    cbn [app]. constructor. now apply IH.
Qed.

(** Toggling the same item twice restores the visible set, whichever way
    the first toggle went: when the host makes visible exactly the ids of
    the list sent by the first toggle, in whatever order its items come,
    the second toggle sends a list with the members of the original
    visible-id list, each once. *)
Theorem toggle_twice_restores_visible_set :
  forall toggle, In toggle toggle_handlers ->
  forall (items items' : list LegendItem) (itemId : string) (ids1 : list string),
    List.NoDup (map id items) -> List.NoDup (map id items') ->
    toggle items itemId = [ItemVisibilityChange ids1; ItemHighlightExit] ->
    (forall v, In v (visibleIds items') <-> In v ids1) ->
    exists ids2,
      toggle items' itemId = [ItemVisibilityChange ids2; ItemHighlightExit] /\
      ids2 ≡ₚ visibleIds items.
Proof.
  intros toggle Hin items items' itemId ids1 Hnd Hnd' Hfirst Happlied.
  rewrite (toggle_handlers_same toggle Hin) in *.
  pose proof (visibleIds_NoDup items Hnd) as HndV.
  pose proof (visibleIds_NoDup items' Hnd') as HndV'.
  unfold Legend.onToggleItem in *. fold (visibleIds items) in Hfirst.
  fold (visibleIds items').
  destruct (includes itemId (visibleIds items)) eqn:Einc;
    cbn [app] in Hfirst; injection Hfirst as <-.
  - apply includes_In in Einc.
    rewrite includes_false.
    2:{ intros Habs. apply Happlied, filter_In in Habs as [_ Habs].
        now rewrite String.eqb_refl in Habs. }
    eexists. split; [reflexivity|].
    rewrite <- (filter_neq_then_add itemId (visibleIds items) HndV Einc).
    apply Permutation_app_tail.
    apply Stdlib.Sorting.Permutation.NoDup_Permutation;
      [assumption | now apply List.NoDup_filter | exact Happlied].
  - assert (~ In itemId (visibleIds items)) as Hout.
    { intros Habs. apply includes_In in Habs. congruence. }
    rewrite (proj2 (includes_In _ _))
      by (apply Happlied, in_app_iff; right; now left).
    eexists. split; [reflexivity|].
    apply Stdlib.Sorting.Permutation.NoDup_Permutation;
      [now apply List.NoDup_filter | assumption |].
    intros v. rewrite filter_In, Happlied, in_app_iff. cbn [In]. split.
    + intros [[Hv|[<-|[]]] Hne]; [assumption|].
      now rewrite String.eqb_refl in Hne.
    + intros Hv. split; [now left|].
      destruct (String.eqb_spec v itemId) as [->|_]; [contradiction | reflexivity].
Qed.

Lemma toggle_twice_restores_visible_set_witness :
  exists ids2,
    Legend.onToggleItem (with_visible ["a"%string; "c"%string] c_then_a) "c"
    = [ItemVisibilityChange ids2; ItemHighlightExit] /\
    ids2 ≡ₚ visibleIds c_then_a.
Proof.
  apply (toggle_twice_restores_visible_set Legend.onToggleItem (or_introl eq_refl)
           c_then_a (with_visible ["a"%string; "c"%string] c_then_a) "c"%string
           ["a"%string; "c"%string]).
  - repeat constructor; simpl; intuition discriminate.
  - repeat constructor; simpl; intuition discriminate.
  - reflexivity.
  - intros v. simpl. tauto.
Defined.

(** ** Highlight and hover *)

Lemma highlight_handlers_same handler :
  In handler highlight_handlers -> handler = Legend.onShowHighlight.
Proof. intros [<-|[<-|[]]]; reflexivity. Qed.

Lemma enter_handlers_same handler :
  In handler enter_handlers -> handler = Legend.onMouseEnter.
Proof. intros [<-|[<-|[]]]; reflexivity. Qed.

Lemma leave_handlers_same handler :
  In handler leave_handlers -> handler = Legend.onMouseLeave.
Proof. intros [<-|[<-|[]]]; reflexivity. Qed.

Lemma find_by_id (items : list LegendItem) (x : LegendItem) :
  List.NoDup (map id items) -> In x items ->
  List.find (fun item => String.eqb (id item) (id x)) items = Some x.
Proof.
  induction items as [|first items IH]; intros Hnd Hx; [destruct Hx|].
  cbn [map] in Hnd. inversion Hnd as [|? ? Hfresh Hnd']; subst. cbn [List.find].
  destruct (String.eqb_spec (id first) (id x)) as [Heq|Hne].
  - destruct Hx as [->|Hx]; [reflexivity|].
    exfalso. apply Hfresh. rewrite Heq. now apply in_map.
  - destruct Hx as [->|Hx]; [contradiction|]. now apply IH.
Qed.

Lemma find_by_id_unknown (items : list LegendItem) (itemId : string) :
  ~ In itemId (map id items) ->
  List.find (fun item => String.eqb (id item) itemId) items = None.
Proof.
  induction items as [|first items IH]; intros Hout; [reflexivity|].
  cbn [map In] in Hout. cbn [List.find].
  destruct (String.eqb_spec (id first) itemId) as [Heq|Hne]; [tauto|]. apply IH. tauto.
Qed.

(** Showing the highlight of an item notifies the host only for a visible
    item of the list, with that very item, and then also cancels a pending
    highlight exit; for a hidden item or an id that is not in the list the
    state is unchanged, so the host is not notified and a pending exit
    stays scheduled. *)
Theorem highlight_only_for_visible_items :
  forall handler, In handler highlight_handlers ->
  forall (items : list LegendItem) (st : State),
    List.NoDup (map id items) ->
    (forall x, In x items -> visible x = true ->
       handler items (id x) st
       = emit [ItemHighlightEnter x]
           (set_highlightControl (DebouncedCall.cancelPrevious (highlightControl st)) st)) /\
    (forall x, In x items -> visible x = false -> handler items (id x) st = st) /\
    (forall itemId, ~ In itemId (map id items) -> handler items itemId st = st).
Proof.
  intros handler Hin items st Hnd. rewrite (highlight_handlers_same handler Hin).
  unfold Legend.onShowHighlight. split; [|split].
  - intros x Hx Hvis. now rewrite (find_by_id items x Hnd Hx), Hvis.
  - intros x Hx Hvis. now rewrite (find_by_id items x Hnd Hx), Hvis.
  - intros itemId Hout. now rewrite (find_by_id_unknown items itemId Hout).
Qed.

Lemma highlight_only_for_visible_items_witness :
  Legend.onShowHighlight abc (id item_c) initial = initial.
Proof.
  refine (proj1 (proj2 (highlight_only_for_visible_items Legend.onShowHighlight
                          (or_introl eq_refl) abc initial _)) item_c _ _).
  - exact abc_NoDup.
  - simpl. tauto.
  - reflexivity.
Defined.

Lemma unlocked_later {A : Type} (dc : DebouncedCall.t A) (t0 t1 : Z) :
  DebouncedCall.locked t0 dc = false -> t0 <= t1 -> DebouncedCall.locked t1 dc = false.
Proof.
  unfold DebouncedCall.locked. destruct (DebouncedCall.lockedUntil dc); [|reflexivity].
  intros H Hle. apply Z.ltb_ge. apply Z.ltb_ge in H. lia.
Qed.

(** Moving the pointer from one item to a visible item within the
    debounce delay does not flicker: the highlight exit scheduled by the
    mouse-leave is cancelled, so the host only sees the highlight of the
    new item, and the tooltip shown afterwards is the one of the new item.
    (Both controllers unlocked at the mouse-leave; [DebouncedCall] as
    modelled above.) *)
Theorem hover_to_next_item_does_not_flicker :
  forall enter leave, In enter enter_handlers -> In leave leave_handlers ->
  forall (items : list LegendItem) (st : State) (x : LegendItem) (t0 t1 t : Z),
    List.NoDup (map id items) -> In x items -> visible x = true ->
    DebouncedCall.locked t0 (tooltipControl st) = false ->
    DebouncedCall.locked t0 (highlightControl st) = false ->
    t0 <= t1 < t0 + HIGHLIGHT_LOST_DELAY -> t1 <= t ->
    let after := runTimers t (enter items (id x) t1 (runTimers t1 (leave t0 st))) in
    tooltipItemId after = Some (id x) /\
    emitted after = emitted st ++ [ItemHighlightEnter x] /\
    DebouncedCall.pending (highlightControl after) = None /\
    DebouncedCall.pending (tooltipControl after) = None.
Proof.
  intros enter leave Henter Hleave items st x t0 t1 t Hnd Hx Hvis Htip Hhl Ht1 Ht after.
  subst after. rewrite (enter_handlers_same enter Henter), (leave_handlers_same leave Hleave).
  pose proof (unlocked_later _ t0 t1 Htip (proj1 Ht1)) as Htip1.
  destruct st as [tip stack tc hc reg active out]. cbn in Htip, Hhl, Htip1.
  unfold Legend.onMouseEnter, Legend.onMouseLeave, Legend.onShowHighlight,
    Legend.onShowTooltip, Legend.onHideTooltip, Legend.clearHighlight,
    DebouncedCall.call, HIGHLIGHT_LOST_DELAY, TOOLTIP_BLUR_DELAY in *.
  cbn. rewrite Htip, Hhl. unfold runTimers. cbn.
  destruct (Z.leb_spec (t0 + 50) t1) as [?|_]; [lia|]. cbn.
  rewrite (find_by_id items x Hnd Hx), Hvis. cbn.
  unfold DebouncedCall.locked in *. cbn in *. rewrite Htip1. cbn.
  destruct (Z.leb_spec (t1 + 0) t) as [_|?]; [|lia]. cbn.
  rewrite !app_nil_r. repeat split; reflexivity.
Qed.

Lemma hover_to_next_item_does_not_flicker_witness :
  tooltipItemId
    (runTimers 20 (Legend.onMouseEnter abc (id item_b) 10
                     (runTimers 10 (Legend.onMouseLeave 0 initial))))
  = Some (id item_b).
Proof.
  refine (proj1 (hover_to_next_item_does_not_flicker Legend.onMouseEnter Legend.onMouseLeave
                   (or_introl eq_refl) (or_introl eq_refl) abc initial item_b 0 10 20
                   _ _ _ _ _ _ _)).
  - exact abc_NoDup.
  - simpl. tauto.
  - reflexivity.
  - reflexivity.
  - reflexivity.
  - unfold HIGHLIGHT_LOST_DELAY. lia.
  - lia.
Defined.

(** ** The tooltip target and its anchor *)

Lemma tooltipTarget_same : ListLegend.tooltipTarget = Legend.tooltipTarget.
Proof. reflexivity. Qed.

(** With unique ids and the list mounted, a tooltip id that names the item
    displayed at index [j] resolves to that item, and the tooltip is
    anchored to the button of that item unless the id is the empty string,
    which leaves the tooltip without anchor; a tooltip id that names no
    item of the list, or no tooltip id, gives no target and no content
    whatever the content resolver returns, and so does a resolver that
    returns null for the target. *)
Theorem tooltip_target_and_anchor :
  (forall (items : list LegendItem) (r : Registries) (j : Z) (item : LegendItem),
     List.NoDup (map id items) -> at_index items j = Some item ->
     Legend.tooltipTarget items (Some (id item)) = Some item /\
     (id item <> ""%string ->
      Legend.tooltipTrack (elementsById (mount items r)) (Some (id item))
      = Some (ItemButton j (id item))) /\
     (id item = ""%string ->
      Legend.tooltipTrack (elementsById (mount items r)) (Some (id item)) = None)) /\
  (forall (C : Type) (getTooltipContent : LegendItem -> option C)
          (items : list LegendItem) (tooltipItemId : option string),
     (forall v, tooltipItemId = Some v -> ~ In v (map id items)) ->
     Legend.tooltipTarget items tooltipItemId = None /\
     Legend.tooltipContent getTooltipContent items tooltipItemId = None) /\
  (forall (C : Type) (items : list LegendItem) (tooltipItemId : option string),
     Legend.tooltipContent (fun _ => @None C) items tooltipItemId = None).
Proof.
  split; [|split].
  - intros items r j item Hnd Hitem.
    pose proof (at_index_In items j item Hitem) as Hin.
    split; [now apply find_by_id|]. unfold Legend.tooltipTrack. split.
    + intros Hne. rewrite (truthy_Some _ Hne).
      apply at_index_nat in Hitem as [Hj Hitem]. unfold mount.
      rewrite (mount_from_byId items 0 r (Z.to_nat j) item Hnd Hitem).
      now rewrite Z.add_0_l, Z2Nat.id by assumption.
    + intros ->. reflexivity.
  - intros C getTooltipContent items tooltipItemId Hunknown.
    assert (Legend.tooltipTarget items tooltipItemId = None) as Hnone.
    { destruct tooltipItemId as [v|]; [|reflexivity].
      apply find_by_id_unknown. now apply Hunknown. }
    split; [assumption|]. unfold Legend.tooltipContent. now rewrite Hnone.
  - intros C items tooltipItemId. unfold Legend.tooltipContent.
    now destruct (Legend.tooltipTarget items tooltipItemId).
Qed.

Lemma tooltip_target_and_anchor_witness :
  Legend.tooltipTarget abc (Some (id item_b)) = Some item_b.
Proof.
  refine (proj1 (proj1 tooltip_target_and_anchor abc no_registries 1 item_b _ _)).
  - exact abc_NoDup.
  - reflexivity.
Defined.

(** ** Unregistering the active element *)

Lemma buttons_from_itemid (items : list LegendItem) (k : Z) (b : Element) :
  In b (buttons_from items k) ->
  exists item, In item items /\ dataset_itemid b = Some (id item).
Proof.
  revert k. induction items as [|first items IH]; intros k Hb; [destruct Hb|].
  cbn [buttons_from In] in Hb. destruct Hb as [<-|Hb].
  - exists first. split; [now left | reflexivity].
  - destruct (IH (k + 1) Hb) as (item & Hitem & Hid). exists item. split; [now right | assumption].
Qed.

Lemma group_target_in_buttons (items : list LegendItem) :
  items <> [] ->
  exists stop, Legend.getNextFocusTarget (Some (buttons items)) items = Some stop /\
               In stop (buttons items).
Proof.
  intros Hne. unfold Legend.getNextFocusTarget.
  destruct (at_index (buttons items) (findIndex highlighted items)) as [b|] eqn:E.
  - exists b. split; [reflexivity|]. now apply at_index_In in E.
  - destruct items as [|first rest]; [contradiction|].
    exists (ItemButton 0 (id first)). split; [reflexivity | now left].
Qed.

(** When the element that holds the tab stop is unregistered because its
    item left the list, the focus moves to the focus target resolved for
    the new list, which is a button of that list; when the focus target
    carries the same item id as the unregistered element, or there is no
    focus target, nothing is focused. *)
Theorem unregister_moves_focus :
  (forall (allItems items : list LegendItem) (k now : Z) (removedId : string) (st : State),
     items <> [] -> ~ In removedId (map id items) ->
     exists stop,
       Legend.getNextFocusTarget (Some (buttons items)) items = Some stop /\
       In stop (buttons items) /\
       activeElement
         (Legend.onUnregisterActive allItems now (Some stop) (ItemButton k removedId) st)
       = Some stop) /\
  (forall (allItems : list LegendItem) (now : Z) (target focusable : Element) (st : State),
     dataset_itemid target = dataset_itemid focusable ->
     Legend.onUnregisterActive allItems now (Some target) focusable st = st) /\
  (forall (allItems : list LegendItem) (now : Z) (focusable : Element) (st : State),
     Legend.onUnregisterActive allItems now None focusable st = st) /\
  ListLegend.onUnregisterActive = Legend.onUnregisterActive.
Proof.
  split; [|split; [|split]].
  - intros allItems items k now removedId st Hne Hremoved.
    destruct (group_target_in_buttons items Hne) as (stop & Htarget & Hin).
    exists stop. split; [assumption|]. split; [assumption|].
    destruct (buttons_from_itemid items 0 stop Hin) as (item & Hitem & Hid).
    unfold Legend.onUnregisterActive. rewrite Hid. cbn [dataset_itemid].
    rewrite bool_decide_eq_false_2.
    + apply focus_lands.
    + intros Heq. injection Heq as Heq. apply Hremoved. rewrite <- Heq. now apply in_map.
  - intros allItems now target focusable st Hsame. unfold Legend.onUnregisterActive.
    now rewrite bool_decide_eq_true_2.
  - reflexivity.
  - reflexivity.
Qed.

Lemma unregister_moves_focus_witness :
  exists stop,
    Legend.getNextFocusTarget (Some (buttons a_then_highlighted_b)) a_then_highlighted_b
    = Some stop /\
    In stop (buttons a_then_highlighted_b) /\
    activeElement
      (Legend.onUnregisterActive a_then_highlighted_b 0 (Some stop) (ItemButton 2 "c") initial)
    = Some stop.
Proof.
  apply (proj1 unregister_moves_focus a_then_highlighted_b a_then_highlighted_b 2 0
           "c"%string initial).
  - discriminate.
  - simpl. intuition discriminate.
Defined.

(** ** Scrolling to the highlighted item *)



(** The scroll is debounced by [SCROLL_DELAY], and the effect returns
    without cancelling when no item is highlighted: after a render with
    item [x] highlighted at [t0] and a second render at [t1], less than
    [SCROLL_DELAY] later, the callback for [x] still runs when the second
    list has no highlighted item, and only the callback for the newly
    highlighted item [y] runs, [SCROLL_DELAY] after [t1], when it has one.
    (The controller unlocked; [DebouncedCall] as modelled above.) *)
Theorem scroll_debounce_and_stale_scroll :
  forall (first second : list LegendItem) (control : DebouncedCall.t string)
         (x : LegendItem) (t0 t1 t : Z),
    DebouncedCall.locked t0 control = false ->
    List.find highlighted first = Some x ->
    t0 <= t1 < t0 + SCROLL_DELAY ->
    (List.find highlighted second = None -> t0 + SCROLL_DELAY <= t ->
       scrolls_after_two_renders first second control t0 t1 t = [id x]) /\
    (forall y, List.find highlighted second = Some y ->
       (t < t1 + SCROLL_DELAY -> scrolls_after_two_renders first second control t0 t1 t = []) /\
       (t1 + SCROLL_DELAY <= t ->
          scrolls_after_two_renders first second control t0 t1 t = [id y])).
Proof.
  intros first second control x t0 t1 t Hunlocked Hx Ht1.
  pose proof (unlocked_later control t0 t1 Hunlocked (proj1 Ht1)) as Hunlocked1.
  unfold scrolls_after_two_renders, Legend.scrollEffect, SCROLL_DELAY in *.
  rewrite Hx. cbn [option_map]. unfold DebouncedCall.call. rewrite Hunlocked.
  cbn [DebouncedCall.advance DebouncedCall.pending].
  destruct (Z.leb_spec (t0 + 100) t1) as [?|_]; [lia|]. cbn [snd]. split.
  - intros -> Ht. cbn [option_map DebouncedCall.advance DebouncedCall.pending].
    destruct (Z.leb_spec (t0 + 100) t) as [_|?]; [reflexivity | lia].
  - intros y ->. cbn [option_map].
    unfold DebouncedCall.locked in *.
    cbn [DebouncedCall.lockedUntil DebouncedCall.cancelPrevious] in *.
    rewrite Hunlocked1. cbn [DebouncedCall.advance DebouncedCall.pending]. split; intros Ht.
    + destruct (Z.leb_spec (t1 + 100) t) as [?|_]; [lia | reflexivity].
    + destruct (Z.leb_spec (t1 + 100) t) as [_|?]; [reflexivity | lia].
Qed.

Lemma scroll_debounce_and_stale_scroll_witness :
  scrolls_after_two_renders a_then_highlighted_b abc DebouncedCall.create 0 10 100
  = [id item_b_highlighted].
Proof.
  refine (proj1 (scroll_debounce_and_stale_scroll a_then_highlighted_b abc
                   DebouncedCall.create item_b_highlighted 0 10 100 _ _ _) _ _).
  - reflexivity.
  - reflexivity.
  - unfold SCROLL_DELAY. lia.
  - reflexivity.
  - unfold SCROLL_DELAY. lia.
Defined.

(** ** The single-list legend: items and layout *)

(** The items a single-list legend displays: "bottom" and "stacked" show
    every item; the left/top and right/bottom types split the list between
    them (every item in exactly one); each type keeps the order of the list,
    and filtering twice is filtering once. *)
Theorem filtered_items_split :
  forall items : list LegendItem,
    ListLegend.filteredItems ListLegend.bottom items = items /\
    ListLegend.filteredItems ListLegend.stacked items = items /\
    ListLegend.filteredItems ListLegend.bottom_left items
      ++ ListLegend.filteredItems ListLegend.bottom_right items ≡ₚ items /\
    ListLegend.filteredItems ListLegend.stacked_top items
      ++ ListLegend.filteredItems ListLegend.stacked_bottom items ≡ₚ items /\
    (forall type,
       sublist (ListLegend.filteredItems type items) items /\
       ListLegend.filteredItems type (ListLegend.filteredItems type items)
       = ListLegend.filteredItems type items).
Proof.
  intros items. split; [reflexivity|]. split; [reflexivity|].
  split; [apply (filter_split_Permutation oppositeAxis)|].
  split; [apply (filter_split_Permutation oppositeAxis)|].
  intros type. destruct type; cbn [ListLegend.filteredItems];
    (split; [try reflexivity; apply filter_sublist | try reflexivity; apply filter_idempotent]).
Qed.

(** The layout classes of the list element, for every type and stacking
    decision: exactly one of list-side and list-bottom is set;
    list-bottom-opposite is set exactly for type "bottom-right" while not
    stacking, and then list-bottom is set too; the stacked types are
    list-side whatever the width; the dual types are the four with a
    dash. *)
Theorem list_classes_consistent :
  forall (type : ListLegend.ChartLegendType) (stack : bool) (items : list LegendItem),
    let view := ListLegend.render type stack items in
    ListLegend.list_side view = negb (ListLegend.list_bottom view) /\
    (ListLegend.list_bottom_opposite view = true
     <-> type = ListLegend.bottom_right /\ stack = false) /\
    (ListLegend.list_bottom_opposite view = true -> ListLegend.list_bottom view = true) /\
    (In type [ListLegend.stacked; ListLegend.stacked_top; ListLegend.stacked_bottom] ->
     ListLegend.list_side view = true) /\
    (ListLegend.isDual type = true
     <-> In type [ListLegend.stacked_top; ListLegend.stacked_bottom;
                  ListLegend.bottom_left; ListLegend.bottom_right]).
Proof.
  intros type stack items view. subst view. unfold ListLegend.render.
  cbn [ListLegend.list_side ListLegend.list_bottom ListLegend.list_bottom_opposite].
  split; [now rewrite negb_involutive|].
  destruct type, stack; vm_compute; intuition (discriminate || congruence).
Qed.

Lemma list_classes_consistent_witness :
  ListLegend.list_side (ListLegend.render ListLegend.stacked_top false abc) = true.
Proof.
  refine (proj1 (proj2 (proj2 (proj2 (list_classes_consistent ListLegend.stacked_top
                                         false abc)))) _).
  simpl. tauto.
Defined.

(** The two stacking thresholds: the grouped legend stacks exactly for a
    measured width below 400 px, the single-list legend exactly for a width
    of at most 400 px, so the two decisions differ exactly at 400 px; a
    resize entry without border box size unstacks the grouped legend, and
    an empty entry list changes nothing. *)
Theorem stacking_thresholds :
  forall (width : Q) (st : State),
    (shouldStack (Legend.onResize [Some width] st) = true <-> (width < 400 # 1)%Q) /\
    (ListLegend.useContainerQuery (Some width) = true <-> (width <= 400 # 1)%Q) /\
    (shouldStack (Legend.onResize [Some width] st) <> ListLegend.useContainerQuery (Some width)
     <-> (width == 400 # 1)%Q) /\
    shouldStack (Legend.onResize [None] st) = false /\
    Legend.onResize [] st = st.
Proof.
  intros width st. rewrite shouldStack_onResize.
  assert (Qlt_bool width (400 # 1) = true <-> (width < 400 # 1)%Q) as Hlt.
  { split; [|apply Qlt_bool_true]. unfold Qlt_bool. intros H.
    apply negb_true_iff in H. apply Qnot_le_lt. intros Hle.
    apply Qle_bool_iff in Hle. congruence. }
  assert (ListLegend.useContainerQuery (Some width) = true <-> (width <= 400 # 1)%Q) as Hle.
  { apply Qle_bool_iff. }
  split; [exact Hlt|]. split; [exact Hle|]. split; [|split; [now destruct st | reflexivity]].
  destruct (Qlt_bool width (400 # 1)) eqn:E1,
    (ListLegend.useContainerQuery (Some width)) eqn:E2; split; try congruence.
  - intros Heq. exfalso. assert (width < 400 # 1)%Q as H by now apply Hlt.
    rewrite Heq in H. now apply Qlt_irrefl in H.
  - intros _. assert (width < 400 # 1)%Q as H by now apply Hlt.
    apply Qlt_le_weak, Hle in H. congruence.
  - intros _. apply Qle_antisym; [now apply Hle|].
    apply Qnot_lt_le. intros H. apply Hlt in H. congruence.
  - intros Heq. exfalso. assert (width <= 400 # 1)%Q as H by (rewrite Heq; apply Qle_refl).
    apply Hle in H. congruence.
Qed.

(** The position of the tooltip in a narrow container: the grouped legend
    decides it from the [position] prop alone, so a bottom legend keeps the
    tooltip below even when the narrow width stacks its two groups into
    side groups; the single-list legend puts it to the left whenever it
    stacks, hence for every type once the width is at most 400 px. *)
Theorem tooltip_position_when_narrow :
  forall (narrow : Q) (type : Legend.LegendType) (items : list LegendItem) (st : State),
    (narrow < 400 # 1)%Q ->
    (Legend.oppositeItems type items <> [] ->
     Legend.render type Legend.bottom (shouldStack (Legend.onResize [Some narrow] st)) items
     = stacked_column (Legend.defaultItems type items) (Legend.oppositeItems type items) /\
     Legend.tooltipPosition Legend.bottom = tooltip_bottom) /\
    (forall listType,
       ListLegend.tooltipPosition listType (ListLegend.useContainerQuery (Some narrow))
       = tooltip_left).
Proof.
  intros narrow type items st Hnarrow. split.
  - intros Hopp. split; [|reflexivity].
    rewrite shouldStack_onResize, (Qlt_bool_true _ _ Hnarrow).
    unfold Legend.render, Legend.sideGroups.
    destruct (Legend.oppositeItems type items); [contradiction | reflexivity].
  - intros listType. unfold ListLegend.tooltipPosition.
    now rewrite (useContainerQuery_narrow narrow Hnarrow), isStacked_shouldStack.
Qed.

Lemma tooltip_position_when_narrow_witness :
  ListLegend.tooltipPosition ListLegend.bottom_right
    (ListLegend.useContainerQuery (Some width_300))
  = tooltip_left.
Proof.
  refine (proj2 (tooltip_position_when_narrow width_300 Legend.dual abc initial _)
            ListLegend.bottom_right).
  reflexivity.
Defined.

(** ** The core legend adapter *)

Lemma isStacked_bottom (stack : bool) : ListLegend.isStacked ListLegend.bottom stack = stack.
Proof. now destruct stack. Qed.

Lemma isStacked_stacked (stack : bool) : ListLegend.isStacked ListLegend.stacked stack = true.
Proof. now destruct stack. Qed.

(** The core legend renders nothing exactly for an empty item list;
    otherwise it shows every item, in order and whatever its axis, never
    with the opposite-axis class, and it is laid out as a side list exactly
    when the alignment is not "horizontal" or the container is narrow. *)
Theorem core_legend_shows_all_items :
  forall (alignment : option string) (items : list LegendItem) (stack : bool),
    (CoreLegend.render alignment items stack = None <-> items = []) /\
    (forall view, CoreLegend.render alignment items stack = Some view ->
       ListLegend.shown view = items /\
       ListLegend.list_bottom_opposite view = false /\
       (ListLegend.list_side view = true
        <-> stack = true \/ exists a, alignment = Some a /\ a <> "horizontal"%string)).
Proof.
  intros alignment items stack. unfold CoreLegend.render. split.
  - destruct items; cbn; split; (reflexivity || discriminate).
  - intros view Hview. destruct items as [|first rest]; [discriminate|].
    cbn [length Nat.eqb] in Hview. injection Hview as <-.
    unfold CoreLegend.type, ListLegend.render.
    cbn [ListLegend.shown ListLegend.list_bottom_opposite ListLegend.list_side].
    destruct alignment as [a|]; [destruct (String.eqb_spec a "horizontal") as [->|Hne]|];
      rewrite ?isStacked_bottom, ?isStacked_stacked;
      (split; [reflexivity|]); (split; [reflexivity|]); split.
    + intros ->. now left.
    + intros [->|(a & Ha & Hne)]; [reflexivity|]. injection Ha as <-. contradiction.
    + intros _. right. now exists a.
    + reflexivity.
    + intros ->. now left.
    + intros [->|(a & Ha & _)]; [reflexivity | discriminate].
Qed.

Lemma core_legend_shows_all_items_witness :
  ListLegend.shown (ListLegend.render ListLegend.stacked false abc) = abc.
Proof.
  refine (proj1 (proj2 (core_legend_shows_all_items (Some "vertical"%string) abc false)
                   (ListLegend.render ListLegend.stacked false abc) _)).
  reflexivity.
Defined.

(** ** More on keyboard navigation *)

Lemma mod_next_previous (i n : Z) :
  0 <= i < n -> ((i + 1) mod n - 1) mod n = i /\ ((i - 1) mod n + 1) mod n = i.
Proof.
  intros Hi. split.
  - rewrite Zminus_mod_idemp_l. replace (i + 1 - 1) with i by lia. now apply Z.mod_small.
  - rewrite Zplus_mod_idemp_l. replace (i - 1 + 1) with i by lia. now apply Z.mod_small.
Qed.

(** Arrow keys undo each other: from the focus index [i] of a mounted
    list, arrow-right focuses some index [next] of the list from which
    arrow-left focuses [i] again, and arrow-left focuses some index
    [previous] from which arrow-right focuses [i] again (the focus index
    being the index of the focused button, as [onFocus] stores it). *)
Theorem arrow_keys_undo_each_other :
  forall onKeyDown, In onKeyDown keydown_handlers ->
  forall (allItems items : list LegendItem) (r : Registries) (i now now' : Z)
         (st st' : State),
    0 <= i < Z.of_nat (length items) ->
    let n := Z.of_nat (length items) in
    let byIndex := elementsByIndex (mount items r) in
    exists next previous,
      0 <= next < n /\ 0 <= previous < n /\
      focus_on items next (snd (onKeyDown allItems items i byIndex KeyCode.right now st)) /\
      focus_on items i (snd (onKeyDown allItems items next byIndex KeyCode.left now' st')) /\
      focus_on items previous (snd (onKeyDown allItems items i byIndex KeyCode.left now st)) /\
      focus_on items i
        (snd (onKeyDown allItems items previous byIndex KeyCode.right now' st')).
Proof.
  intros onKeyDown Hin allItems items r i now now' st st' Hi n byIndex. subst byIndex.
  destruct (keydown_handlers_cases onKeyDown Hin allItems items) as [searched ->].
  assert (0 <= (i + 1) mod n < n) as Hnext by (apply Z.mod_pos_bound; lia).
  assert (0 <= (i - 1) mod n < n) as Hprev by (apply Z.mod_pos_bound; lia).
  destruct (mod_next_previous i n Hi) as [Hback Hforth].
  exists ((i + 1) mod n), ((i - 1) mod n).
  split; [assumption|]. split; [assumption|].
  unfold Legend.onKeyDown.
  cbn [snd Toolkit.handleKey Toolkit.onInlineStart Toolkit.onInlineEnd].
  fold n.
  rewrite (circleIndex_next i n Hi), (circleIndex_previous i n Hi).
  rewrite (circleIndex_previous _ n Hnext), (circleIndex_next _ n Hprev), Hback, Hforth.
  repeat split; apply focusElement_mounted; fold n; lia.
Qed.

Lemma arrow_keys_undo_each_other_witness :
  exists next previous,
    0 <= next < 3 /\ 0 <= previous < 3 /\
    focus_on abc next
      (snd (Legend.onKeyDown abc abc 2 (elementsByIndex (mount abc no_registries))
              KeyCode.right 0 initial)) /\
    focus_on abc 2
      (snd (Legend.onKeyDown abc abc next (elementsByIndex (mount abc no_registries))
              KeyCode.left 10 initial)) /\
    focus_on abc previous
      (snd (Legend.onKeyDown abc abc 2 (elementsByIndex (mount abc no_registries))
              KeyCode.left 0 initial)) /\
    focus_on abc 2
      (snd (Legend.onKeyDown abc abc previous (elementsByIndex (mount abc no_registries))
              KeyCode.right 10 initial)).
Proof.
  apply (arrow_keys_undo_each_other Legend.onKeyDown (or_introl eq_refl) abc abc no_registries
           2 0 10 initial initial).
  simpl. lia.
Defined.

(** The blur event of the previous element changes at most the pending
    action of the tooltip controller. *)
Lemma blur_changes_pending_tooltip (now : Z) (el : Element) (st : State) :
  exists control,
    match activeElement st with
    | Some previous => Legend.blurEvent now previous (Some el) st
    | None => st
    end = set_tooltipControl control st /\
    DebouncedCall.lockedUntil control = DebouncedCall.lockedUntil (tooltipControl st).
Proof.
  destruct (activeElement st) as [[index itemid|k|k]|] eqn:E; cbn;
    try (exists (tooltipControl st); split; [now destruct st | reflexivity]).
  eexists. split; [reflexivity|]. unfold DebouncedCall.call.
  now destruct (DebouncedCall.locked now (tooltipControl st)).
Qed.

(** What the focus of another, visible item does while the tooltip
    controller is not locked. *)
Lemma focus_item_unlocked (allItems : list LegendItem) (now t j : Z) (x : LegendItem)
    (st : State) :
  List.NoDup (map id allItems) -> In x allItems -> visible x = true ->
  activeElement st <> Some (ItemButton j (id x)) ->
  DebouncedCall.locked now (tooltipControl st) = false -> now <= t ->
  let st' := focus (Legend.focusEvent allItems now) (Legend.blurEvent now)
               (Some (ItemButton j (id x))) st in
  activeElement st' = Some (ItemButton j (id x)) /\
  selectedIndex st' = j /\
  emitted st' = emitted st ++ [ItemHighlightEnter x] /\
  tooltipItemId (runTimers t st') = Some (id x).
Proof.
  intros Hnd Hx Hvis Hother Hunlocked Ht st'. subst st'.
  split; [apply focus_lands|].
  unfold focus. rewrite bool_decide_eq_false_2 by assumption.
  destruct (blur_changes_pending_tooltip now (ItemButton j (id x)) st)
    as (control & -> & Hcontrol).
  unfold Legend.focusEvent, Legend.onFocus, Legend.onShowHighlight.
  rewrite (find_by_id allItems x Hnd Hx), Hvis.
  split; [reflexivity|]. split; [reflexivity|].
  rewrite tooltipItemId_runTimers.
  unfold Legend.onShowTooltip, DebouncedCall.call, DebouncedCall.locked in *. cbn.
  rewrite Hcontrol, Hunlocked. cbn.
  destruct (Z.leb_spec (now + 0) t) as [_|?]; [reflexivity | lia].
Qed.

(** What the focus of another, visible item does while the tooltip
    controller is locked: the show is dropped. *)
Lemma focus_item_locked (allItems : list LegendItem) (now j : Z) (x : LegendItem)
    (st : State) :
  List.NoDup (map id allItems) -> In x allItems -> visible x = true ->
  activeElement st <> Some (ItemButton j (id x)) ->
  DebouncedCall.locked now (tooltipControl st) = true ->
  focus (Legend.focusEvent allItems now) (Legend.blurEvent now)
    (Some (ItemButton j (id x))) st
  = set_selectedIndex j
      (emit [ItemHighlightEnter x]
         (set_highlightControl (DebouncedCall.cancelPrevious (highlightControl st))
            (set_activeElement (Some (ItemButton j (id x))) st))).
Proof.
  intros Hnd Hx Hvis Hother Hlocked.
  unfold focus. rewrite bool_decide_eq_false_2 by assumption.
  assert (match activeElement st with
          | Some previous => Legend.blurEvent now previous (Some (ItemButton j (id x))) st
          | None => st
          end = st) as ->.
  { destruct (activeElement st) as [[index itemid|k|k]|]; try reflexivity.
    cbn. now apply onHideTooltip_locked. }
  unfold Legend.focusEvent, Legend.onFocus, Legend.onShowHighlight.
  rewrite (find_by_id allItems x Hnd Hx), Hvis.
  rewrite onShowTooltip_locked; [reflexivity|]. exact Hlocked.
Qed.

Lemma key_target_index (key : KeyCode.t) (allItems items : list LegendItem)
    (byIndex : gmap Z Element) (i j now : Z) (st : State) :
  0 <= i < Z.of_nat (length items) ->
  key_target key i (Z.of_nat (length items)) = Some j ->
  Legend.onKeyDown allItems items i byIndex key now st
  = (true, Legend.focusElement allItems now byIndex j st).
Proof.
  intros Hi Hkey. unfold Legend.onKeyDown.
  destruct key; cbn in Hkey; try discriminate; injection Hkey as <-;
    cbn [Toolkit.handleKey Toolkit.onInlineStart Toolkit.onInlineEnd
         Toolkit.onBlockStart Toolkit.onBlockEnd Toolkit.onHome Toolkit.onEnd];
    rewrite ?(circleIndex_next i _ Hi), ?(circleIndex_previous i _ Hi); reflexivity.
Qed.

(** What a key does in the list.  A key other than the arrows, Home, End
    and Escape is not prevented and changes nothing; Escape is prevented
    and only notifies the host of the highlight exit, at once.  An arrow,
    Home or End that leads from the focus index [i] to another item [x] of
    the mounted list, a visible one, focuses its button, and the focus
    event of that button runs inside the key handler: it stores the index
    of [x] as the focus index, notifies the host of the highlight of [x]
    and, the tooltip controller not being locked, makes the tooltip of [x]
    the one shown at the next timer run.  When the button of the target has
    the focus already, the key changes nothing.  ([DebouncedCall],
    [circleIndex] and [handleKey] as modelled above.) *)
Theorem key_effects :
  (forall onKeyDown, In onKeyDown keydown_handlers ->
   forall (allItems items : list LegendItem) (selected : Z) (byIndex : gmap Z Element)
          (now : Z) (st : State),
     (forall code,
        onKeyDown allItems items selected byIndex (KeyCode.other code) now st = (false, st)) /\
     onKeyDown allItems items selected byIndex KeyCode.escape now st
     = (true, emit [ItemHighlightExit] st)) /\
  (forall (allItems items : list LegendItem) (r : Registries) (key : KeyCode.t)
          (i j now t : Z) (x : LegendItem) (st : State),
     List.NoDup (map id allItems) -> In x allItems ->
     0 <= i < Z.of_nat (length items) ->
     key_target key i (Z.of_nat (length items)) = Some j ->
     at_index items j = Some x -> visible x = true ->
     let result :=
       Legend.onKeyDown allItems items i (elementsByIndex (mount items r)) key now st in
     (activeElement st = Some (ItemButton j (id x)) -> result = (true, st)) /\
     (activeElement st <> Some (ItemButton j (id x)) ->
      DebouncedCall.locked now (tooltipControl st) = false -> now <= t ->
      fst result = true /\
      activeElement (snd result) = Some (ItemButton j (id x)) /\
      selectedIndex (snd result) = j /\
      emitted (snd result) = emitted st ++ [ItemHighlightEnter x] /\
      tooltipItemId (runTimers t (snd result)) = Some (id x))) /\
  (forall filtered : list LegendItem,
     ListLegend.onKeyDown filtered = Legend.onKeyDown filtered filtered).
Proof.
  split; [|split].
  - intros onKeyDown Hin allItems items selected byIndex now st.
    destruct (keydown_handlers_cases onKeyDown Hin allItems items) as [searched ->].
    split; reflexivity.
  - intros allItems items r key i j now t x st Hnd Hx Hi Hkey Hitem Hvis result.
    subst result.
    rewrite (key_target_index key allItems items _ i j now st Hi Hkey).
    unfold Legend.focusElement. rewrite (mount_lookup items r j x Hitem). split.
    + intros Hsame. unfold focus. now rewrite bool_decide_eq_true_2.
    + intros Hother Hunlocked Ht. split; [reflexivity|]. cbn [snd].
      now apply focus_item_unlocked.
  - reflexivity.
Qed.

Lemma key_effects_witness :
  fst (Legend.onKeyDown abc abc 0 (elementsByIndex (mount abc no_registries))
         KeyCode.right 0 initial) = true /\
  activeElement (snd (Legend.onKeyDown abc abc 0 (elementsByIndex (mount abc no_registries))
                        KeyCode.right 0 initial)) = Some (ItemButton 1 (id item_b)) /\
  selectedIndex (snd (Legend.onKeyDown abc abc 0 (elementsByIndex (mount abc no_registries))
                        KeyCode.right 0 initial)) = 1 /\
  emitted (snd (Legend.onKeyDown abc abc 0 (elementsByIndex (mount abc no_registries))
                  KeyCode.right 0 initial)) = emitted initial ++ [ItemHighlightEnter item_b] /\
  tooltipItemId
    (runTimers 5 (snd (Legend.onKeyDown abc abc 0 (elementsByIndex (mount abc no_registries))
                         KeyCode.right 0 initial))) = Some (id item_b).
Proof.
  refine (proj2 (proj1 (proj2 key_effects) abc abc no_registries KeyCode.right 0 1 0 5 item_b
                   initial _ _ _ _ _ _) _ _ _).
  - exact abc_NoDup.
  - simpl. tauto.
  - simpl. lia.
  - reflexivity.
  - reflexivity.
  - reflexivity.
  - discriminate.
  - reflexivity.
  - lia.
Defined.

(** ** Item triggers *)

Lemma someHighlighted_iff (items : list LegendItem) :
  someHighlighted items = true <-> exists other, In other items /\ highlighted other = true.
Proof. unfold someHighlighted. apply existsb_exists. Qed.

Lemma trigger_of_item (allItems : list LegendItem) (item : LegendItem) :
  trigger_of allItems item
    (LegendItemTrigger (someHighlighted allItems) (highlighted item) (visible item)
       (id item) (name item)).
Proof.
  unfold trigger_of. cbn. repeat split.
  - apply andb_true_iff in H as [_ H]. now apply negb_true_iff in H.
  - apply andb_true_iff in H as [H _]. now apply someHighlighted_iff.
  - intros [Hnot Hsome]. apply someHighlighted_iff in Hsome. now rewrite Hsome, Hnot.
Qed.

(** The triggers a list renders are, item by item and in order, those of
    its items: each carries the id and the name of its item, is pressed
    exactly when the item is visible, inactive exactly when it is hidden,
    current exactly when it is highlighted, and dimmed exactly when the
    item is not highlighted while some item of the whole legend, of this
    list or of the other, is.  So for a group of the grouped legend and for
    the filtered items of the single-list legend. *)
Theorem triggers_reflect_items :
  forall (allItems groupItems : list LegendItem) (type : ListLegend.ChartLegendType),
    Forall2 (trigger_of allItems) groupItems
      (Legend.renderedItems (someHighlighted allItems) groupItems) /\
    Forall2 (trigger_of allItems) (ListLegend.filteredItems type allItems)
      (ListLegend.renderedItems type allItems).
Proof.
  assert (forall allItems groupItems,
            Forall2 (trigger_of allItems) groupItems
              (Legend.renderedItems (someHighlighted allItems) groupItems)) as Hall.
  { intros allItems groupItems. unfold Legend.renderedItems.
    induction groupItems as [|item rest IH]; cbn [map]; constructor; [|exact IH].
    apply trigger_of_item. }
  intros allItems groupItems type. split; [apply Hall|].
  apply (Hall allItems (ListLegend.filteredItems type allItems)).
Qed.

(** ** Keyboard focus and the tooltip *)

Lemma onShowHighlight_keeps_tooltip (items : list LegendItem) (itemId : string) (st : State) :
  tooltipControl (Legend.onShowHighlight items itemId st) = tooltipControl st /\
  tooltipItemId (Legend.onShowHighlight items itemId st) = tooltipItemId st.
Proof.
  unfold Legend.onShowHighlight.
  destruct (List.find _ items) as [item|]; [destruct (visible item)|]; split; reflexivity.
Qed.

(** Focusing an item stores its index as the focus index and, while the
    tooltip controller is not locked, shows the tooltip of that item at the
    next timer run.  The focus that Escape gives back to the owner of the
    tooltip is different: the focus event runs inside the Escape handler,
    after the lock, so its show is dropped, as is the show of a focus
    handler that runs next, and the tooltip is closed once the hide has
    fired.  When the owner is a visible item whose registered button did
    not have the focus, the Escape handler still enters the highlight of
    the item, gives its button the focus and stores its index.
    ([DebouncedCall] as modelled above.) *)
Theorem focus_shows_tooltip_unless_escaped :
  forall (items : list LegendItem) (st : State) (x : LegendItem) (j t0 t : Z),
    List.NoDup (map id items) -> In x items ->
    DebouncedCall.locked t0 (tooltipControl st) = false ->
    (t0 <= t ->
     fst (Legend.onFocus items j (id x) t0 st) = j /\
     tooltipItemId (runTimers t (snd (Legend.onFocus items j (id x) t0 st))) = Some (id x)) /\
    (forall keydown, In keydown document_handlers ->
     tooltipItemId st = Some (id x) -> id x <> ""%string ->
     t0 + TOOLTIP_BLUR_DELAY <= t ->
     let escaped := keydown items KeyCode.escape t0 st in
     tooltipItemId (runTimers t escaped) = None /\
     tooltipItemId (runTimers t (snd (Legend.onFocus items j (id x) t0 escaped))) = None /\
     (visible x = true ->
      registry st !! id x = Some (ItemButton j (id x)) ->
      activeElement st <> Some (ItemButton j (id x)) ->
      emitted escaped = emitted st ++ [ItemHighlightEnter x] /\
      activeElement escaped = Some (ItemButton j (id x)) /\
      selectedIndex escaped = j)).
Proof.
  intros items st x j t0 t Hnd Hx Hunlocked. split.
  - intros Ht. split; [reflexivity|]. unfold Legend.onFocus. cbn [snd].
    destruct (onShowHighlight_keeps_tooltip items (id x) st) as [Hcontrol Htip].
    rewrite tooltipItemId_runTimers. unfold Legend.onShowTooltip at 1 2.
    assert (tooltipControl
              (set_tooltipControl
                 (DebouncedCall.call (Some (id x)) 0 t0
                    (tooltipControl (Legend.onShowHighlight items (id x) st)))
                 (Legend.onShowHighlight items (id x) st))
            = DebouncedCall.mk (Some (t0 + 0, Some (id x)))
                (DebouncedCall.lockedUntil (tooltipControl st))) as ->.
    { rewrite Hcontrol. unfold DebouncedCall.call. rewrite Hunlocked.
      now destruct (Legend.onShowHighlight items (id x) st). }
    cbn [DebouncedCall.advance DebouncedCall.pending].
    destruct (Z.leb_spec (t0 + 0) t) as [_|?]; [reflexivity | lia].
  - intros keydown Hin Htip Hne Ht escaped. subst escaped.
    rewrite (document_handlers_same keydown Hin),
      (documentKeyDown_escape items st (id x) t0 Htip Hne).
    set (hidden := Legend.onHideTooltip true t0 st).
    assert (DebouncedCall.locked t0 (tooltipControl hidden) = true) as Hlocked.
    { apply onHideTooltip_locks. unfold TOOLTIP_BLUR_DELAY. lia. }
    assert (tooltipControl hidden
            = DebouncedCall.mk (Some (t0 + TOOLTIP_BLUR_DELAY, None))
                (Some (t0 + TOOLTIP_BLUR_DELAY))) as Hhidden
      by now apply onHideTooltip_lock_unlocked.
    destruct (focus_locked_keeps_tooltip items t0 (registry st !! id x) hidden Hlocked)
      as [Hcontrol _].
    set (escaped := focus (Legend.focusEvent items t0) (Legend.blurEvent t0)
                      (registry st !! id x) hidden) in *.
    split; [|split].
    + rewrite tooltipItemId_runTimers, Hcontrol, Hhidden.
      cbn [DebouncedCall.advance DebouncedCall.pending].
      destruct (Z.leb_spec (t0 + TOOLTIP_BLUR_DELAY) t) as [_|?]; [reflexivity | lia].
    + unfold Legend.onFocus. cbn [snd].
      destruct (onShowHighlight_keeps_tooltip items (id x) escaped) as [Hsame _].
      rewrite onShowTooltip_locked by (rewrite Hsame, Hcontrol; exact Hlocked).
      rewrite tooltipItemId_runTimers, Hsame, Hcontrol, Hhidden.
      cbn [DebouncedCall.advance DebouncedCall.pending].
      destruct (Z.leb_spec (t0 + TOOLTIP_BLUR_DELAY) t) as [_|?]; [reflexivity | lia].
    + intros Hvis Hreg Hother. subst escaped. rewrite Hreg.
      rewrite (focus_item_locked items t0 j x hidden Hnd Hx Hvis Hother Hlocked).
      split; [now destruct st | split; reflexivity].
Qed.

Lemma focus_shows_tooltip_unless_escaped_witness :
  (fst (Legend.onFocus abc 1 (id item_b) 1000 tooltip_on_b) = 1 /\
   tooltipItemId (runTimers 1060 (snd (Legend.onFocus abc 1 (id item_b) 1000 tooltip_on_b)))
   = Some (id item_b)) /\
  (tooltipItemId (runTimers 1060 (Legend.documentKeyDown abc KeyCode.escape 1000 tooltip_on_b))
   = None /\
   emitted (Legend.documentKeyDown abc KeyCode.escape 1000 tooltip_on_b)
   = emitted tooltip_on_b ++ [ItemHighlightEnter item_b] /\
   activeElement (Legend.documentKeyDown abc KeyCode.escape 1000 tooltip_on_b)
   = Some (ItemButton 1 (id item_b)) /\
   selectedIndex (Legend.documentKeyDown abc KeyCode.escape 1000 tooltip_on_b) = 1).
Proof.
  destruct (focus_shows_tooltip_unless_escaped abc tooltip_on_b item_b 1 1000 1060)
    as [Hfocus Hescape].
  - exact abc_NoDup.
  - simpl. tauto.
  - reflexivity.
  - split; [apply Hfocus; lia|].
    destruct (Hescape Legend.documentKeyDown (or_introl eq_refl)) as (Hclosed & _ & Hfocused).
    + reflexivity.
    + discriminate.
    + unfold TOOLTIP_BLUR_DELAY. lia.
    + split; [exact Hclosed|]. apply Hfocused; [reflexivity | reflexivity | discriminate].
Defined.

Lemma axis_groups_partition_witness : oppositeAxis item_a = false.
Proof.
  refine (proj1 (proj2 (proj2 (proj2 (proj2 (axis_groups_partition Legend.dual abc)))))
            eq_refl item_a _).
  simpl. tauto.
Defined.

Lemma render_keeps_every_item_witness :
  Legend.items (Legend.mkGroup Legend.group_side [item_c] "Opposite legend") <> [].
Proof.
  refine (proj2 (proj2 (render_keeps_every_item Legend.dual Legend.side false abc)) _ _).
  simpl. tauto.
Defined.

Lemma stacking_thresholds_witness :
  shouldStack (Legend.onResize [Some width_300] initial) = true.
Proof.
  refine (proj2 (proj1 (stacking_thresholds width_300 initial)) _).
  reflexivity.
Defined.
